(** * Pharmacy point-of-sale backend: the sale-commit path and its neighbours

    A shallow embedding of [server/routes.ts] (the [POST /api/sales],
    [POST /api/purchases], drug and drug-batch handlers),
    [server/storage.ts] (the [DatabaseStorage] methods those handlers call)
    and of the table declarations of the shared schema.

    - JavaScript values travel as [value]; a JSON number is carried as the
      rational its literal denotes.  The binary minus is exact on integers
      (ids and quantities; doubles are, below 2^53); on any other operands
      it is [js_minus_coerce], the language's operator with its [ToNumber]
      coercions and IEEE rounding, which is a parameter.
    - The validators [insertXSchema.parse] are built by the schema library
      from the table declarations; what they accept is a parameter.  A
      schema without transforms returns the data it was given, so a
      validator is a predicate on the candidate object.  The library checks
      a [decimal] column as a string; the statements that rest on this
      carry it as a hypothesis ([decimal_columns_are_text]).
    - The database engine may refuse any call (a constraint it enforces, a
      lost connection): its verdict [refuses] is a parameter.  Integer
      columns hold integers; a write of anything else to one is refused.
      The engine draws the id of an insert before it checks the row, so
      after a refused insert its sequence may be one ahead of the one
      carried here; the statements below hold either way.  A [decimal]
      column is carried as it was handed in, where the engine returns it
      as text scaled to two places; no statement below reads a decimal
      column of a stored row.
    - A handler runs in [M]: state passing over the tables, with
      exceptions.  A throw keeps the writes made before it: the handlers
      open no transaction.
    - The handlers are taken behind [authenticateToken]: they start from
      the user the token names. *)

From Stdlib Require Import QArith Ascii.
From stdpp Require Import gmap strings list pretty.

Local Close Scope Q_scope.

Local Open Scope string_scope.
Local Open Scope Z_scope.

(** ** JavaScript values *)

#[warnings="-register-all"]
Inductive value :=
| VUndefined
| VNull
| VBool (b : bool)
| VNum (q : Q)
| VNaN
| VStr (s : string)
| VDate (ms : Z)
| VArr (elems : list value)
| VObj (props : list (string * value)).

Definition VInt (n : Z) : value := VNum (inject_Z n).

(** [Number.isInteger], with the integer. *)
Definition as_int (v : value) : option Z :=
  match v with
  | VNum q => let r := Qred q in
              if decide (Qden r = 1%positive) then Some (Qnum r) else None
  | _ => None
  end.

(** The truthiness test of [||] and [?:]. *)
Definition truthy (v : value) : bool :=
  match v with
  | VUndefined | VNull | VNaN => false
  | VBool b => b
  | VNum q => negb (Qnum q =? 0)
  | VStr s => negb (String.eqb s EmptyString)
  | VDate _ | VArr _ | VObj _ => true
  end.

(** [a || b] *)
Definition js_or (a b : value) : value := if truthy a then a else b.

Fixpoint assoc (k : string) (props : list (string * value)) : value :=
  match props with
  | [] => VUndefined
  | (k', v) :: rest => if String.eqb k k' then v else assoc k rest
  end.

Inductive error := ZodError | TypeError | StorageError.

Inductive result (A : Type) :=
| Ok (a : A)
| Throw (e : error).
Arguments Ok {A} a.
Arguments Throw {A} e.

(** Property read [v.k]: throws on [undefined] and [null], and none of the
    keys read by the handlers is a property of a primitive or an array. *)
Definition prop (v : value) (k : string) : result value :=
  match v with
  | VUndefined | VNull => Throw TypeError
  | VObj props => Ok (assoc k props)
  | _ => Ok VUndefined
  end.

(** Object spread [{...v}]: own properties of an object, nothing for
    [undefined], [null] and the other primitives; an array or a string
    spreads its indices, none of which a handler reads. *)
Definition spread (v : value) : list (string * value) :=
  match v with
  | VObj props => props
  | _ => []
  end.

Fixpoint chars (s : string) : list value :=
  match s with
  | EmptyString => []
  | String c rest => VStr (String c EmptyString) :: chars rest
  end.

(** What [for (const x of v)] iterates: the elements of an array, the
    characters of a string; anything else is not iterable. *)
Definition iterate (v : value) : result (list value) :=
  match v with
  | VArr elems => Ok elems
  | VStr s => Ok (chars s)
  | _ => Throw TypeError
  end.

(** ** Rows of the tables *)

Record User := { user_id : Z; username : string; role : string }.

Record Drug := {
  drug_id : Z;
  name : string;
  genericName : option string;
  brand : option string;
  barcode : option string;
  drug_columns : value  (* categoryId, dosage, form, description, flags *)
}.

Record DrugBatch := {
  batch_id : Z;
  drugId : value;
  batchNumber : value;
  expiryDate : value;
  quantity : Z;
  costPrice : value;
  sellingPrice : value;
  supplierId : value
}.

(** The object handed to [insertSaleSchema.parse], and to [createSale]. *)
Record InsertSale := {
  receiptNumber : value;
  subtotal : value;
  taxAmount : value;
  discountAmount : value;
  totalAmount : value;
  paymentMethod : value;
  status : value;
  userId : value;
  customerName : value;
  customerPhone : value
}.

(** A row of [sales]: the columns that were supplied, and [customerId],
    which no handler supplies.  Timestamps filled in by the engine are not
    carried, here and in the other rows. *)
Record Sale := {
  sale_id : Z;
  sale_data : InsertSale;
  customerId : value
}.

(** The object handed to [insertSaleItemSchema.parse]. *)
Record InsertSaleItem := {
  saleId : value;
  drugBatchId : value;
  item_quantity : value;
  unitPrice : value;
  totalPrice : value
}.

Record SaleItem := {
  item_id : Z;
  item_saleId : Z;
  item_drugBatchId : Z;
  item_qty : Z;
  item_unitPrice : value;
  item_totalPrice : value
}.

Record Purchase := { purchase_id : Z; purchase_data : list (string * value) }.
Record PurchaseItem := { pitem_id : Z; pitem_data : list (string * value) }.

(** A table with a [serial] primary key: its rows by id, and the sequence
    the next id is drawn from. *)
Record Table (R : Type) := { rows : gmap Z R; seq : Z }.
Arguments rows {R} t.
Arguments seq {R} t.

Record DB := {
  drugs : Table Drug;
  drugBatches : Table DrugBatch;
  sales : Table Sale;
  saleItems : Table SaleItem;
  purchases : Table Purchase;
  purchaseItems : Table PurchaseItem
}.

(** [nextval]: the sequence moves on whether or not the insert goes
    through; an id already taken violates the primary key. *)
Definition bump {R} (t : Table R) : Table R :=
  {| rows := rows t; seq := seq t + 1 |}.

Definition insert_row {R} (mk : Z -> R) (t : Table R) : option R * Table R :=
  let id := seq t in
  match rows t !! id with
  | Some _ => (None, bump t)
  | None => (Some (mk id), {| rows := <[id := mk id]> (rows t); seq := seq t + 1 |})
  end.

(** ** The handler monad *)

Definition M (A : Type) : Type := DB -> result A * DB.

Definition ret {A} (a : A) : M A := fun db => (Ok a, db).
Definition throw {A} (e : error) : M A := fun db => (Throw e, db).
Definition bind {A B} (m : M A) (k : A -> M B) : M B :=
  fun db => match m db with
            | (Ok a, db') => k a db'
            | (Throw e, db') => (Throw e, db')
            end.
Definition lift {A} (r : result A) : M A := fun db => (r, db).

(** [try { m } catch (error) { }] around a single statement. *)
Definition try_ignore {A} (m : M A) : M unit :=
  fun db => (Ok tt, snd (m db)).

Notation "'let*' x ':=' m 'in' k" := (bind m (fun x => k))
  (at level 10, x name, m at level 100, k at level 200).
Notation "m ';;' k" := (bind m (fun _ => k))
  (at level 100, k at level 200, right associativity).

(** ** Requests and responses *)

(** [new Date().getFullYear()] and [Date.now()] when the handler runs. *)
Record Clock := { year : Z; now : Z }.

(** [{ ...newSale, items, amountReceived, change }] *)
Record SaleView := {
  view_sale : Sale;
  view_items : list SaleItem;
  view_amountReceived : value;
  view_change : value
}.

Inductive body :=
| BSale (saleWithItems : SaleView)
| BPurchase (newPurchase : Purchase)
| BDrugBatch (batch : DrugBatch)
| BDrug (drug : option Drug)
| BDrugs (found : list Drug)
| BEmpty
| BMessage (message : string).

(** [res.status(code).json(payload)] *)
Inductive response := Json (code : Z) (payload : body).

(** ** Storage calls *)

(** The calls the handlers make on the storage layer, as the engine sees
    them. *)
Inductive call :=
| CreateSale (sale : InsertSale)
| CreateSaleItem (saleItem : InsertSaleItem)
| GetDrugBatch (id : value)
| UpdateDrugBatch (id : value) (quantity : value)
| CreateDrugBatch (batch : value)
| CreateDrug (drug : value)
| UpdateDrug (id : value) (drug : value)
| DeleteDrug (id : value)
| SearchDrugs (query : string)
| CreatePurchase (purchase : list (string * value))
| CreatePurchaseItem (purchaseItem : list (string * value)).

Definition set_drugs (t : Table Drug) (db : DB) : DB :=
  {| drugs := t; drugBatches := drugBatches db; sales := sales db;
     saleItems := saleItems db; purchases := purchases db;
     purchaseItems := purchaseItems db |}.
Definition set_drugBatches (t : Table DrugBatch) (db : DB) : DB :=
  {| drugs := drugs db; drugBatches := t; sales := sales db;
     saleItems := saleItems db; purchases := purchases db;
     purchaseItems := purchaseItems db |}.
Definition set_sales (t : Table Sale) (db : DB) : DB :=
  {| drugs := drugs db; drugBatches := drugBatches db; sales := t;
     saleItems := saleItems db; purchases := purchases db;
     purchaseItems := purchaseItems db |}.
Definition set_saleItems (t : Table SaleItem) (db : DB) : DB :=
  {| drugs := drugs db; drugBatches := drugBatches db; sales := sales db;
     saleItems := t; purchases := purchases db;
     purchaseItems := purchaseItems db |}.
Definition set_purchases (t : Table Purchase) (db : DB) : DB :=
  {| drugs := drugs db; drugBatches := drugBatches db; sales := sales db;
     saleItems := saleItems db; purchases := t;
     purchaseItems := purchaseItems db |}.
Definition set_purchaseItems (t : Table PurchaseItem) (db : DB) : DB :=
  {| drugs := drugs db; drugBatches := drugBatches db; sales := sales db;
     saleItems := saleItems db; purchases := purchases db;
     purchaseItems := t |}.

(** A column default: used when the insert leaves the column out. *)
Definition with_default (d v : value) : value :=
  match v with VUndefined => d | _ => v end.

Definition set_quantity (q : Z) (b : DrugBatch) : DrugBatch :=
  {| batch_id := batch_id b; drugId := drugId b; batchNumber := batchNumber b;
     expiryDate := expiryDate b; quantity := q; costPrice := costPrice b;
     sellingPrice := sellingPrice b; supplierId := supplierId b |}.

(** The row of [sales] an insert makes: the columns left out take their
    default, or [NULL]; the decimal columns are carried as handed in. *)
Definition sale_row (sale : InsertSale) (id : Z) : Sale :=
  {| sale_id := id;
     sale_data :=
       {| receiptNumber := receiptNumber sale;
          subtotal := subtotal sale;
          taxAmount := taxAmount sale;
          discountAmount := with_default (VStr "0") (discountAmount sale);
          totalAmount := totalAmount sale;
          paymentMethod := paymentMethod sale;
          status := with_default (VStr "completed") (status sale);
          userId := userId sale;
          customerName := with_default VNull (customerName sale);
          customerPhone := with_default VNull (customerPhone sale) |};
     customerId := VNull |}.

(** The properties of [props] under the keys [keys]: what a parsed object
    keeps of its input. *)
Definition pick (keys : list string) (props : list (string * value))
    : list (string * value) :=
  (fun k => (k, assoc k props)) <$> keys.

Definition as_text (v : value) : option string :=
  match v with VStr s => Some s | _ => None end.

(** A nullable text column: [NULL] when the value is left out. *)
Definition as_opt_text (v : value) : option (option string) :=
  match v with
  | VUndefined | VNull => Some None
  | VStr s => Some (Some s)
  | _ => None
  end.

(** *** SQL [LIKE]

    [%] matches any run of characters, [_] any one character, a backslash
    takes the next pattern character literally; every other character
    matches itself, case included.  The patterns of [searchDrugs] end in
    [%], never in a lone backslash. *)
Definition head_is (c : ascii) (k : string -> bool) (s : string) : bool :=
  match s with
  | EmptyString => false
  | String c' s' => Ascii.eqb c c' && k s'
  end.

Definition skip_one (k : string -> bool) (s : string) : bool :=
  match s with
  | EmptyString => false
  | String _ s' => k s'
  end.

Fixpoint like (pattern : string) : string -> bool :=
  match pattern with
  | EmptyString => fun s => match s with EmptyString => true | _ => false end
  | String c p =>
      if Ascii.eqb c "%" then
        fix star (s : string) : bool :=
          like p s || match s with
                      | EmptyString => false
                      | String _ s' => star s'
                      end
      else if Ascii.eqb c "_" then skip_one (like p)
      else if Ascii.eqb c "\" then
        match p with
        | String c' p' => head_is c' (like p')
        | EmptyString => head_is c (like p)
        end
      else head_is c (like p)
  end.

(** [like(column, pattern)] on a nullable column: [NULL] is no match. *)
Definition like_column (column : option string) (pattern : string) : bool :=
  match column with Some s => like pattern s | None => false end.

Section Backend.

(** What the schema library's validators accept. *)
Variable insertSaleSchema : InsertSale -> bool.
Variable insertSaleItemSchema : InsertSaleItem -> bool.
Variable insertPurchaseSchema : list (string * value) -> bool.
Variable insertPurchaseItemSchema : list (string * value) -> bool.
Variable insertDrugBatchSchema : value -> bool.
Variable insertDrugSchema : value -> bool.
Variable insertDrugSchema_partial : value -> bool.

(** The engine's verdict on a call in a state. *)
Variable refuses : DB -> call -> bool.

(** The binary minus on operands that are not both integers. *)
Variable js_minus_coerce : value -> value -> value.

(** [a - b] *)
Definition js_minus (a b : value) : value :=
  match as_int a, as_int b with
  | Some x, Some y => VInt (x - y)
  | _, _ => js_minus_coerce a b
  end.

(** [schema.parse(x)] *)
Definition parse {A} (schema : A -> bool) (x : A) : M A :=
  if schema x then ret x else throw ZodError.

(** A storage call goes to the engine first. *)
Definition engine {A} (c : call) (m : M A) : M A :=
  fun db => if refuses db c then (Throw StorageError, db) else m db.

(** *** [DatabaseStorage] *)

Definition createSale (sale : InsertSale) : M Sale :=
  engine (CreateSale sale) (fun db =>
    match insert_row (sale_row sale) (sales db) with
    | (Some newSale, t) => (Ok newSale, set_sales t db)
    | (None, t) => (Throw StorageError, set_sales t db)
    end).

Definition createSaleItem (saleItem : InsertSaleItem) : M SaleItem :=
  engine (CreateSaleItem saleItem) (fun db =>
    match as_int (saleId saleItem), as_int (drugBatchId saleItem),
          as_int (item_quantity saleItem) with
    | Some s, Some b, Some q =>
        let row id :=
          {| item_id := id; item_saleId := s; item_drugBatchId := b;
             item_qty := q; item_unitPrice := unitPrice saleItem;
             item_totalPrice := totalPrice saleItem |} in
        match insert_row row (saleItems db) with
        | (Some newSaleItem, t) => (Ok newSaleItem, set_saleItems t db)
        | (None, t) => (Throw StorageError, set_saleItems t db)
        end
    | _, _, _ => (Throw StorageError, db)
    end).

(** [const [batch] = await db.select()...where(eq(drugBatches.id, id))] *)
Definition getDrugBatch (id : value) : M (option DrugBatch) :=
  engine (GetDrugBatch id) (fun db =>
    match as_int id with
    | Some n => (Ok (rows (drugBatches db) !! n), db)
    | None => (Throw StorageError, db)
    end).

(** [updateDrugBatch(id, { quantity })]: the routes pass no other
    column.  No row with that id: nothing is updated and the result is
    [undefined]. *)
Definition updateDrugBatch (id : value) (qty : value) : M (option DrugBatch) :=
  engine (UpdateDrugBatch id qty) (fun db =>
    match as_int id, as_int qty with
    | Some n, Some q =>
        let t := drugBatches db in
        (Ok (set_quantity q <$> rows t !! n),
         set_drugBatches {| rows := alter (set_quantity q) n (rows t);
                            seq := seq t |} db)
    | _, _ => (Throw StorageError, db)
    end).

Definition createDrugBatch (batch : value) : M DrugBatch :=
  engine (CreateDrugBatch batch) (fun db =>
    let props := spread batch in
    match as_int (assoc "quantity" props) with
    | Some q =>
        let row id :=
          {| batch_id := id;
             drugId := assoc "drugId" props;
             batchNumber := assoc "batchNumber" props;
             expiryDate := assoc "expiryDate" props;
             quantity := q;
             costPrice := assoc "costPrice" props;
             sellingPrice := assoc "sellingPrice" props;
             supplierId := assoc "supplierId" props |} in
        match insert_row row (drugBatches db) with
        | (Some newBatch, t) => (Ok newBatch, set_drugBatches t db)
        | (None, t) => (Throw StorageError, set_drugBatches t db)
        end
    | None => (Throw StorageError, db)
    end).

Definition drug_other_columns : list string :=
  ["categoryId"; "dosage"; "form"; "description"; "requiresPrescription";
   "isActive"].

Definition createDrug (drug : value) : M Drug :=
  engine (CreateDrug drug) (fun db =>
    let props := spread drug in
    match as_text (assoc "name" props), as_opt_text (assoc "genericName" props),
          as_opt_text (assoc "brand" props), as_opt_text (assoc "barcode" props) with
    | Some n, Some g, Some b, Some c =>
        let row id :=
          {| drug_id := id; name := n; genericName := g; brand := b;
             barcode := c;
             drug_columns := VObj (pick drug_other_columns props) |} in
        match insert_row row (drugs db) with
        | (Some newDrug, t) => (Ok newDrug, set_drugs t db)
        | (None, t) => (Throw StorageError, set_drugs t db)
        end
    | _, _, _, _ => (Throw StorageError, db)
    end).

(** [.set(drug)]: a column is written when the patch has a value for it. *)
Definition patch_text (v : value) (old : string) : option string :=
  match v with VUndefined => Some old | _ => as_text v end.
Definition patch_opt_text (v : value) (old : option string)
    : option (option string) :=
  match v with
  | VUndefined => Some old
  | VNull => Some None
  | _ => Some <$> as_text v
  end.
Definition patch_columns (props : list (string * value)) (old : value) : value :=
  VObj ((fun k => (k, with_default (assoc k (spread old)) (assoc k props)))
          <$> drug_other_columns).

(** [.set(drug)] with no column to set throws before any query is sent. *)
Definition no_values (props : list (string * value)) : bool :=
  forallb (fun k => match assoc k props with VUndefined => true | _ => false end)
    (["name"; "genericName"; "brand"; "barcode"] ++ drug_other_columns)%list.

Definition updateDrug (id : value) (drug : value) : M (option Drug) :=
  if no_values (spread drug) then throw StorageError else
  engine (UpdateDrug id drug) (fun db =>
    let props := spread drug in
    match as_int id with
    | None => (Throw StorageError, db)
    | Some n =>
        match rows (drugs db) !! n with
        | None => (Ok None, db)
        | Some old =>
            match patch_text (assoc "name" props) (name old),
                  patch_opt_text (assoc "genericName" props) (genericName old),
                  patch_opt_text (assoc "brand" props) (brand old),
                  patch_opt_text (assoc "barcode" props) (barcode old) with
            | Some nm, Some g, Some b, Some c =>
                let updatedDrug :=
                  {| drug_id := n; name := nm; genericName := g; brand := b;
                     barcode := c;
                     drug_columns := patch_columns props (drug_columns old) |} in
                (Ok (Some updatedDrug),
                 set_drugs {| rows := <[n := updatedDrug]> (rows (drugs db));
                              seq := seq (drugs db) |} db)
            | _, _, _, _ => (Throw StorageError, db)
            end
        end
    end).

Definition deleteDrug (id : value) : M unit :=
  engine (DeleteDrug id) (fun db =>
    match as_int id with
    | Some n =>
        (Ok tt, set_drugs {| rows := delete n (rows (drugs db));
                             seq := seq (drugs db) |} db)
    | None => (Throw StorageError, db)
    end).

(** The four [like(column, `%${query}%`)] under [or]. *)
Definition drug_matches (query : string) (d : Drug) : bool :=
  let pattern := "%" ++ query ++ "%" in
  like pattern (name d)
  || like_column (genericName d) pattern
  || like_column (brand d) pattern
  || like_column (barcode d) pattern.

Definition searchDrugs (query : string) : M (list Drug) :=
  engine (SearchDrugs query) (fun db =>
    (Ok (filter (fun d => drug_matches query d = true)
           (snd <$> map_to_list (rows (drugs db)))), db)).

Definition createPurchase (purchase : list (string * value)) : M Purchase :=
  engine (CreatePurchase purchase) (fun db =>
    let row id :=
      {| purchase_id := id;
         purchase_data :=
           ("status", with_default (VStr "pending") (assoc "status" purchase))
             :: purchase |} in
    match insert_row row (purchases db) with
    | (Some newPurchase, t) => (Ok newPurchase, set_purchases t db)
    | (None, t) => (Throw StorageError, set_purchases t db)
    end).

Definition createPurchaseItem (purchaseItem : list (string * value))
    : M PurchaseItem :=
  engine (CreatePurchaseItem purchaseItem) (fun db =>
    let row id := {| pitem_id := id; pitem_data := purchaseItem |} in
    match insert_row row (purchaseItems db) with
    | (Some newPurchaseItem, t) => (Ok newPurchaseItem, set_purchaseItems t db)
    | (None, t) => (Throw StorageError, set_purchaseItems t db)
    end).

(** *** [POST /api/sales] *)

(** [`POS-${new Date().getFullYear()}-${Date.now()}`] *)
Definition receipt_number (clk : Clock) : value :=
  VStr ("POS-" ++ pretty (year clk) ++ "-" ++ pretty (now clk)).

(** The body of [for (const item of items)], once per item, and the
    [saleItems] array it pushes to. *)
Fixpoint sale_items_loop (newSale : Sale) (items : list value)
    (saleItems : list SaleItem) : M (list SaleItem) :=
  match items with
  | [] => ret saleItems
  | item :: rest =>
      let* i_drugBatchId := lift (prop item "drugBatchId") in
      let* i_quantity := lift (prop item "quantity") in
      let* i_unitPrice := lift (prop item "unitPrice") in
      let* i_totalPrice := lift (prop item "totalPrice") in
      let* saleItemData :=
        parse insertSaleItemSchema
          {| saleId := VInt (sale_id newSale);
             drugBatchId := i_drugBatchId;
             item_quantity := i_quantity;
             unitPrice := i_unitPrice;
             totalPrice := i_totalPrice |} in
      let* createdItem := createSaleItem saleItemData in
      let saleItems := (saleItems ++ [createdItem])%list in
      (* Update drug batch quantity *)
      let* batch := getDrugBatch i_drugBatchId in
      match batch with
      | Some batch =>
          updateDrugBatch i_drugBatchId
            (js_minus (VInt (quantity batch)) i_quantity) ;;
          sale_items_loop newSale rest saleItems
      | None => sale_items_loop newSale rest saleItems
      end
  end.

(** The [try] block of the handler. *)
Definition sale_commit (user : User) (clk : Clock) (body : value)
    : M SaleView :=
  let* items := lift (prop body "items") in
  let* subtotal := lift (prop body "subtotal") in
  let* taxAmount := lift (prop body "taxAmount") in
  let* totalAmount := lift (prop body "totalAmount") in
  let* paymentMethod := lift (prop body "paymentMethod") in
  let* amountReceived := lift (prop body "amountReceived") in
  let* customerName := lift (prop body "customerName") in
  let* customerPhone := lift (prop body "customerPhone") in
  (* Generate receipt number *)
  let receiptNumber := receipt_number clk in
  let* saleData :=
    parse insertSaleSchema
      {| receiptNumber := receiptNumber;
         subtotal := subtotal;
         taxAmount := taxAmount;
         discountAmount := VInt 0;
         totalAmount := totalAmount;
         paymentMethod := paymentMethod;
         status := VStr "completed";
         userId := VInt (user_id user);
         customerName := customerName;
         customerPhone := customerPhone |} in
  let* newSale := createSale saleData in
  (* Create sale items and update inventory *)
  let* items := lift (iterate items) in
  let* saleItems := sale_items_loop newSale items [] in
  (* Return sale with items for receipt generation *)
  ret {| view_sale := newSale;
         view_items := saleItems;
         view_amountReceived := js_or amountReceived totalAmount;
         view_change :=
           if truthy amountReceived
           then js_minus amountReceived totalAmount
           else VInt 0 |}.

(** The handler: [res.status(201).json(saleWithItems)], or the [catch]. *)
Definition post_sales (user : User) (clk : Clock) (body : value) (db : DB)
    : response * DB :=
  match sale_commit user clk body db with
  | (Ok saleWithItems, db') => (Json 201 (BSale saleWithItems), db')
  | (Throw _, db') => (Json 500 (BMessage "Internal server error"), db')
  end.

(** *** Role-based access control *)

Definition requireRole (roles : list string) (user : User)
    (handler : DB -> response * DB) (db : DB) : response * DB :=
  if bool_decide (role user ∈ roles) then handler db
  else (Json 403 (BMessage "Insufficient permissions"), db).

Definition respond {A} (code : Z) (payload : A -> body) (m : M A) (db : DB)
    : response * DB :=
  match m db with
  | (Ok a, db') => (Json code (payload a), db')
  | (Throw _, db') => (Json 500 (BMessage "Internal server error"), db')
  end.

(** *** [POST /api/purchases] *)

Definition purchase_columns : list string :=
  ["purchaseNumber"; "supplierId"; "userId"; "totalAmount"; "status"].
Definition purchase_item_columns : list string :=
  ["purchaseId"; "drugId"; "quantity"; "unitCost"; "totalCost";
   "batchNumber"; "expiryDate"].

Definition purchase_number (clk : Clock) : value :=
  VStr ("PUR-" ++ pretty (year clk) ++ "-" ++ pretty (now clk)).

Fixpoint purchase_items_loop (newPurchase : Purchase) (items : list value)
    : M unit :=
  match items with
  | [] => ret tt
  | item :: rest =>
      let* purchaseItemData :=
        parse insertPurchaseItemSchema
          (("purchaseId", VInt (purchase_id newPurchase)) :: spread item) in
      createPurchaseItem (pick purchase_item_columns purchaseItemData) ;;
      purchase_items_loop newPurchase rest
  end.

Definition purchase_commit (user : User) (clk : Clock) (body : value)
    : M Purchase :=
  let* purchase := lift (prop body "purchase") in
  let* items := lift (prop body "items") in
  (* Generate purchase number *)
  let purchaseNumber := purchase_number clk in
  let* purchaseData :=
    parse insertPurchaseSchema
      (("purchaseNumber", purchaseNumber) :: ("userId", VInt (user_id user))
         :: spread purchase) in
  let* newPurchase := createPurchase (pick purchase_columns purchaseData) in
  (* Create purchase items *)
  let* items := lift (iterate items) in
  purchase_items_loop newPurchase items ;;
  ret newPurchase.

Definition post_purchases (user : User) (clk : Clock) (body : value)
    : DB -> response * DB :=
  requireRole ["admin"; "pharmacist"] user
    (respond 201 BPurchase (purchase_commit user clk body)).

(** *** Drug-batch and drug routes *)

Definition post_drug_batches (user : User) (body : value)
    : DB -> response * DB :=
  requireRole ["admin"; "pharmacist"] user
    (respond 201 BDrugBatch
       (let* batchData := parse insertDrugBatchSchema body in
        createDrugBatch batchData)).

Definition post_drugs (user : User) (body : value) : DB -> response * DB :=
  requireRole ["admin"; "pharmacist"] user
    (respond 201 (fun d => BDrug (Some d))
       (let* drugData := parse insertDrugSchema body in
        createDrug drugData)).

(** [parseInt(req.params.id)]: an integer, or [NaN]. *)
Definition parsed_id (id : option Z) : value :=
  match id with Some n => VInt n | None => VNaN end.

Definition put_drug (user : User) (id : option Z) (body : value)
    : DB -> response * DB :=
  requireRole ["admin"; "pharmacist"] user
    (respond 200 BDrug
       (let* drugData := parse insertDrugSchema_partial body in
        updateDrug (parsed_id id) drugData)).

Definition delete_drug (user : User) (id : option Z) : DB -> response * DB :=
  requireRole ["admin"] user
    (respond 204 (fun _ => BEmpty) (deleteDrug (parsed_id id))).

(** [GET /api/drugs/search]: [q] is absent, or a string. *)
Definition get_drugs_search (q : option string) (db : DB) : response * DB :=
  match q with
  | None | Some EmptyString => (Json 400 (BMessage "Query parameter is required"), db)
  | Some query => respond 200 BDrugs (searchDrugs query) db
  end.

(** *** [POST /api/init-test-data]

    The categories and suppliers it creates first live in tables that are
    not carried here. *)

Definition test_drug (nm generic dosage form : string) (categoryId : Z) : value :=
  VObj [("name", VStr nm); ("genericName", VStr generic);
        ("dosage", VStr dosage); ("form", VStr form);
        ("categoryId", VInt categoryId)].

Definition test_drugs : list value :=
  [test_drug "Amoxicillin" "Amoxicillin" "500mg" "Capsules" 1;
   test_drug "Paracetamol" "Acetaminophen" "500mg" "Tablets" 2;
   test_drug "Vitamin C" "Ascorbic Acid" "1000mg" "Tablets" 3;
   test_drug "Ibuprofen" "Ibuprofen" "400mg" "Tablets" 2].

Definition test_batch (drug : Z) (number : string) (expiry : Z) (qty : Z)
    (cost selling : Q) (supplier : Z) : value :=
  VObj [("drugId", VInt drug); ("batchNumber", VStr number);
        ("expiryDate", VDate expiry); ("quantity", VInt qty);
        ("costPrice", VNum cost); ("sellingPrice", VNum selling);
        ("supplierId", VInt supplier)].

Definition test_batches : list value :=
  [test_batch 1 "AMX001" 1767139200000 100 (17 # 2) (12 # 1) 1;
   test_batch 2 "PAR001" 1764460800000 150 (13 # 4) (11 # 2) 1;
   test_batch 3 "VIT001" 1769817600000 75 (15 # 1) (45 # 2) 2;
   test_batch 4 "IBU001" 1761868800000 200 (19 # 4) (8 # 1) 2].

Fixpoint try_each {A B} (f : A -> M B) (l : list A) : M unit :=
  match l with
  | [] => ret tt
  | x :: rest => try_ignore (f x) ;; try_each f rest
  end.

Definition post_init_test_data (user : User) : DB -> response * DB :=
  requireRole ["admin"] user
    (respond 200 (fun _ => BMessage "Test data initialized successfully")
       (try_each createDrug test_drugs ;;
        try_each createDrugBatch test_batches)).

(** *** The routes over the tables carried here

    Every other route reads, or writes a table that is not part of [DB]
    (users, categories, suppliers, customers, settings). *)

Inductive operation :=
| PostSales (user : User) (clk : Clock) (body : value)
| PostPurchases (user : User) (clk : Clock) (body : value)
| PostDrugBatches (user : User) (body : value)
| PostDrugs (user : User) (body : value)
| PutDrug (user : User) (id : option Z) (body : value)
| DeleteDrugById (user : User) (id : option Z)
| GetDrugsSearch (q : option string)
| PostInitTestData (user : User).

Definition step (op : operation) : DB -> response * DB :=
  match op with
  | PostSales user clk body => post_sales user clk body
  | PostPurchases user clk body => post_purchases user clk body
  | PostDrugBatches user body => post_drug_batches user body
  | PostDrugs user body => post_drugs user body
  | PutDrug user id body => put_drug user id body
  | DeleteDrugById user id => delete_drug user id
  | GetDrugsSearch q => get_drugs_search q
  | PostInitTestData user => post_init_test_data user
  end.

End Backend.

(** ** Vocabulary of the claims *)

(** [v.k] where it can be read, [undefined] where it cannot. *)
Definition field (v : value) (k : string) : value :=
  match prop v k with Ok x => x | Throw _ => VUndefined end.

(** The batch a cart line references, and the quantity it asks for. *)
Definition line_batch (item : value) : option Z :=
  as_int (field item "drugBatchId").
Definition line_quantity (item : value) : Z :=
  default 0 (as_int (field item "quantity")).

(** The cart of a request: what the handler's loop iterates. *)
Definition cart (body : value) : option (list value) :=
  match prop body "items" with
  | Ok items => match iterate items with Ok l => Some l | Throw _ => None end
  | Throw _ => None
  end.

(** The header object and the line objects that a request puts before the
    validators. *)
Definition header (user : User) (clk : Clock) (body : value) : InsertSale :=
  {| receiptNumber := receipt_number clk;
     subtotal := field body "subtotal";
     taxAmount := field body "taxAmount";
     discountAmount := VInt 0;
     totalAmount := field body "totalAmount";
     paymentMethod := field body "paymentMethod";
     status := VStr "completed";
     userId := VInt (user_id user);
     customerName := field body "customerName";
     customerPhone := field body "customerPhone" |}.

Definition line (sale : Z) (item : value) : InsertSaleItem :=
  {| saleId := VInt sale;
     drugBatchId := field item "drugBatchId";
     item_quantity := field item "quantity";
     unitPrice := field item "unitPrice";
     totalPrice := field item "totalPrice" |}.

(** A value whose properties can be read. *)
Definition readable (v : value) : bool :=
  match v with VUndefined | VNull => false | _ => true end.

(** What one line does to the batch table. *)
Definition sell (n : Z) (q : Z) (t : Table DrugBatch) : Table DrugBatch :=
  match rows t !! n with
  | Some b => {| rows := alter (set_quantity (quantity b - q)) n (rows t); seq := seq t |}
  | None => t
  end.

(** The tables once the header is stored. *)
Definition with_sale (newSale : Sale) (db : DB) : DB :=
  set_sales {| rows := <[seq (sales db) := newSale]> (rows (sales db));
               seq := seq (sales db) + 1 |} db.

(** The sequence of a table is ahead of its rows. *)
Definition fresh {R} (t : Table R) : Prop :=
  forall id, seq t <= id -> rows t !! id = None.

Definition internal_error : response :=
  Json 500 (BMessage "Internal server error").

(** [frame P m]: whatever [m] does and however it ends, the tables before
    and after are related by [P]. *)
Definition frame {A} (P : DB -> DB -> Prop) (m : M A) : Prop :=
  forall db, P db (snd (m db)).

(** The batch table is left as it is. *)
Definition same_batches (db db' : DB) : Prop := drugBatches db' = drugBatches db.

(** The batches there were are still there, as they were. *)
Definition batches_kept (db db' : DB) : Prop :=
  forall id b, rows (drugBatches db) !! id = Some b ->
               rows (drugBatches db') !! id = Some b.

Definition is_sale (op : operation) : bool :=
  match op with PostSales _ _ _ => true | _ => false end.

Section Vocabulary.

Variable insertSaleSchema : InsertSale -> bool.
Variable insertSaleItemSchema : InsertSaleItem -> bool.
Variable refuses : DB -> call -> bool.
Variable js_minus_coerce : value -> value -> value.

(** An engine that refuses nothing. *)
Definition accepts_all : Prop := forall db c, refuses db c = false.

(** The view the handler answers with. *)
Definition sale_view (newSale : Sale) (body : value) (saleItems : list SaleItem)
    : SaleView :=
  {| view_sale := newSale;
     view_items := saleItems;
     view_amountReceived :=
       js_or (field body "amountReceived") (field body "totalAmount");
     view_change :=
       if truthy (field body "amountReceived")
       then js_minus js_minus_coerce (field body "amountReceived")
              (field body "totalAmount")
       else VInt 0 |}.

End Vocabulary.

(** *** The drug search *)

(** [q] occurs in [s]. *)
Definition contains (q s : string) : Prop :=
  exists a b, s = (a ++ q ++ b)%string.

Definition column_contains (q : string) (column : option string) : Prop :=
  match column with Some s => contains q s | None => False end.

(** A query without the characters that [LIKE] reads as something else. *)
Fixpoint plain (q : string) : bool :=
  match q with
  | EmptyString => true
  | String c q' =>
      negb (Ascii.eqb c "%") && negb (Ascii.eqb c "_") && negb (Ascii.eqb c "\")
      && plain q'
  end.

(** A query made of [%] alone. *)
Fixpoint only_percent (q : string) : bool :=
  match q with
  | EmptyString => true
  | String c q' => Ascii.eqb c "%" && only_percent q'
  end.

(** ASCII lower case, for the reading of the search that ignores case. *)
Definition lower_ascii (c : ascii) : ascii :=
  let n := N_of_ascii c in
  if ((65 <=? n) && (n <=? 90))%N then ascii_of_N (n + 32) else c.

Fixpoint lower (s : string) : string :=
  match s with
  | EmptyString => EmptyString
  | String c s' => String (lower_ascii c) (lower s')
  end.

Definition contains_ignoring_case (q s : string) : Prop :=
  contains (lower q) (lower s).

(** ** The validators of the schema

    What the schema library builds from the table declarations: a field is
    checked against the kind of its column.  An [integer] column takes an
    integer, a [varchar] or [text] column a string, a [boolean] column a
    boolean, a [timestamp] column a [Date], and a [decimal] column a
    string, never a number.  A column that is nullable or has a default may
    be left out. *)

Definition is_integer (v : value) : bool := bool_decide (is_Some (as_int v)).
Definition is_text (v : value) : bool :=
  match v with VStr _ => true | _ => false end.
Definition is_decimal (v : value) : bool := is_text v.
Definition is_boolean (v : value) : bool :=
  match v with VBool _ => true | _ => false end.
Definition is_date (v : value) : bool :=
  match v with VDate _ => true | _ => false end.
Definition optional (kind : value -> bool) (v : value) : bool :=
  match v with VUndefined | VNull => true | _ => kind v end.
(** A required column under [.partial()]: it may be left out, not null. *)
Definition partial (kind : value -> bool) (v : value) : bool :=
  match v with VUndefined => true | _ => kind v end.

Definition shape_sale (s : InsertSale) : bool :=
  is_text (receiptNumber s) && is_decimal (subtotal s)
  && is_decimal (taxAmount s) && optional is_decimal (discountAmount s)
  && is_decimal (totalAmount s) && is_text (paymentMethod s)
  && optional is_text (status s) && is_integer (userId s)
  && optional is_text (customerName s) && optional is_text (customerPhone s).

Definition shape_sale_item (i : InsertSaleItem) : bool :=
  is_integer (saleId i) && is_integer (drugBatchId i)
  && is_integer (item_quantity i) && is_decimal (unitPrice i)
  && is_decimal (totalPrice i).

Definition shape_purchase (p : list (string * value)) : bool :=
  is_text (assoc "purchaseNumber" p) && is_integer (assoc "supplierId" p)
  && is_integer (assoc "userId" p) && is_decimal (assoc "totalAmount" p)
  && optional is_text (assoc "status" p).

Definition shape_purchase_item (p : list (string * value)) : bool :=
  is_integer (assoc "purchaseId" p) && is_integer (assoc "drugId" p)
  && is_integer (assoc "quantity" p) && is_decimal (assoc "unitCost" p)
  && is_decimal (assoc "totalCost" p) && is_text (assoc "batchNumber" p)
  && is_date (assoc "expiryDate" p).

Definition shape_drug_batch (v : value) : bool :=
  match v with
  | VObj p =>
      is_integer (assoc "drugId" p) && is_text (assoc "batchNumber" p)
      && is_date (assoc "expiryDate" p) && is_integer (assoc "quantity" p)
      && is_decimal (assoc "costPrice" p) && is_decimal (assoc "sellingPrice" p)
      && optional is_integer (assoc "supplierId" p)
  | _ => false
  end.

Definition shape_drug_columns (name_kind : value -> bool)
    (p : list (string * value)) : bool :=
  name_kind (assoc "name" p) && optional is_text (assoc "genericName" p)
  && optional is_text (assoc "brand" p) && optional is_integer (assoc "categoryId" p)
  && optional is_text (assoc "dosage" p) && optional is_text (assoc "form" p)
  && optional is_text (assoc "description" p)
  && optional is_text (assoc "barcode" p)
  && optional is_boolean (assoc "requiresPrescription" p)
  && optional is_boolean (assoc "isActive" p).

Definition shape_drug (v : value) : bool :=
  match v with VObj p => shape_drug_columns is_text p | _ => false end.

(** [insertDrugSchema.partial()] *)
Definition shape_drug_patch (v : value) : bool :=
  match v with VObj p => shape_drug_columns (partial is_text) p | _ => false end.

(** ** Concrete engines

    An engine that refuses nothing and, further down, one that enforces
    the references and the unique columns the schema declares.  The minus
    off the integers is never reached by a statement below; it stands as
    [NaN]. *)

Definition never_refuses (db : DB) (c : call) : bool := false.
Definition refuses_everything (db : DB) (c : call) : bool := true.
Definition minus_nan (a b : value) : value := VNaN.

Definition post_sales0 : User -> Clock -> value -> DB -> response * DB :=
  post_sales shape_sale shape_sale_item never_refuses minus_nan.

Definition step0 : operation -> DB -> response * DB :=
  step shape_sale shape_sale_item shape_purchase shape_purchase_item
    shape_drug_batch shape_drug shape_drug_patch never_refuses minus_nan.

Definition empty_table {R} : Table R := {| rows := ∅; seq := 1 |}.

Definition empty_db : DB :=
  {| drugs := empty_table; drugBatches := empty_table; sales := empty_table;
     saleItems := empty_table; purchases := empty_table;
     purchaseItems := empty_table |}.

Definition cashier : User := {| user_id := 7; username := "amina"; role := "cashier" |}.
Definition admin : User := {| user_id := 1; username := "root"; role := "admin" |}.
Definition amina_as_admin : User :=
  {| user_id := 7; username := "amina"; role := "admin" |}.
Definition noon : Clock := {| year := 2025; now := 1750000000000 |}.

(** The tables after [POST /api/init-test-data] on an empty database. *)
Definition stocked_db : DB := snd (step0 (PostInitTestData admin) empty_db).

(** [db.select().from(table)]: a [select] without [orderBy] returns its
    rows in an order the engine chooses; here it is the order of the ids. *)
Definition select {R} (t : Table R) : list R := snd <$> map_to_list (rows t).

(** *** The constraints of the schema

    The references between the tables carried here, the unique columns and
    the range of an [integer] column, as the engine enforces them.  The
    references to users, suppliers, categories and customers point to
    tables that are not carried: their rows are taken to be there. *)

Definition int32 (v : value) : bool :=
  match as_int v with
  | Some n => (-2147483648 <=? n) && (n <=? 2147483647)
  | None => false
  end.

(** [v] is the id of a row of [t]. *)
Definition row_of {R} (t : Table R) (v : value) : bool :=
  match as_int v with
  | Some n => bool_decide (is_Some (rows t !! n))
  | None => false
  end.

Definition same_id (a b : value) : bool :=
  match as_int a, as_int b with
  | Some x, Some y => x =? y
  | _, _ => false
  end.

Definition same_text (a b : value) : bool :=
  match a, b with
  | VStr x, VStr y => String.eqb x y
  | _, _ => false
  end.

Definition holds (column : option string) (v : value) : bool :=
  match column, v with
  | Some x, VStr y => String.eqb x y
  | _, _ => false
  end.

Definition constraints (db : DB) (c : call) : bool :=
  match c with
  | CreateSale s =>
      existsb (fun r => same_text (receiptNumber (sale_data r)) (receiptNumber s))
        (select (sales db))
  | CreateSaleItem i =>
      negb (row_of (sales db) (saleId i) && row_of (drugBatches db) (drugBatchId i)
            && int32 (item_quantity i))
  | GetDrugBatch id => negb (int32 id)
  | UpdateDrugBatch id q => negb (int32 id && int32 q)
  | CreateDrugBatch b =>
      negb (row_of (drugs db) (assoc "drugId" (spread b))
            && int32 (assoc "quantity" (spread b)))
  | CreateDrug d =>
      existsb (fun r => holds (barcode r) (assoc "barcode" (spread d)))
        (select (drugs db))
  | UpdateDrug id d =>
      negb (int32 id)
      || existsb (fun r => negb (same_id id (VInt (drug_id r)))
                           && holds (barcode r) (assoc "barcode" (spread d)))
           (select (drugs db))
  | DeleteDrug id =>
      negb (int32 id)
      || existsb (fun b => same_id id (drugId b)) (select (drugBatches db))
      || existsb (fun i => same_id id (assoc "drugId" (pitem_data i)))
           (select (purchaseItems db))
  | SearchDrugs _ => false
  | CreatePurchase p =>
      existsb (fun r => same_text (assoc "purchaseNumber" (purchase_data r))
                          (assoc "purchaseNumber" p))
        (select (purchases db))
  | CreatePurchaseItem i =>
      negb (row_of (purchases db) (assoc "purchaseId" i)
            && row_of (drugs db) (assoc "drugId" i)
            && int32 (assoc "quantity" i))
  end.

(** The routes as shipped: the validators of the schema over the engine
    with its constraints. *)
Definition shipped : operation -> DB -> response * DB :=
  step shape_sale shape_sale_item shape_purchase shape_purchase_item
    shape_drug_batch shape_drug shape_drug_patch constraints minus_nan.

(** *** What the claims speak of *)

(** A validator of the sale header that takes the decimal columns as
    strings, as the schema library builds it. *)
Definition decimal_columns_are_text (schema : InsertSale -> bool) : Prop :=
  forall s, schema s = true ->
    is_text (subtotal s) = true /\ is_text (taxAmount s) = true
    /\ optional is_text (discountAmount s) = true
    /\ is_text (totalAmount s) = true.

(** An engine that enforces the reference of a sale item to its batch. *)
Definition references_batches (refuses : DB -> call -> bool) : Prop :=
  forall db i n,
    as_int (drugBatchId i) = Some n ->
    rows (drugBatches db) !! n = None ->
    refuses db (CreateSaleItem i) = true.

(** Every sale item that has been added is of a batch there is, and the
    batches there are stay the same. *)
Definition items_are_of_batches (db db' : DB) : Prop :=
  (forall id row,
     rows (saleItems db') !! id = Some row ->
     rows (saleItems db) !! id = Some row
     \/ is_Some (rows (drugBatches db) !! item_drugBatchId row))
  /\ (forall n, is_Some (rows (drugBatches db') !! n)
                <-> is_Some (rows (drugBatches db) !! n)).

(** A cart line for a batch there is and a positive whole quantity. *)
Definition orderly_line (db : DB) (item : value) : Prop :=
  exists n q,
    line_batch item = Some n /\ is_Some (rows (drugBatches db) !! n)
    /\ as_int (field item "quantity") = Some q /\ 0 < q.

Definition orderly_cart (db : DB) (body : value) : Prop :=
  exists items,
    cart body = Some items /\ items <> [] /\ Forall (orderly_line db) items.

Definition no_negative_batch (db : DB) : Prop :=
  map_Forall (fun _ b => 0 <= quantity b) (rows (drugBatches db)).

Definition quantity_of (db : DB) (id : Z) : option Z :=
  quantity <$> rows (drugBatches db) !! id.

Definition code_of (r : response) : Z := match r with Json code _ => code end.

(** *** Requests

    A request body is JSON: it holds no [undefined], no [NaN] and no
    [Date]. *)

Fixpoint is_json (v : value) : bool :=
  match v with
  | VNull | VBool _ | VNum _ | VStr _ => true
  | VArr elems => forallb is_json elems
  | VObj props => forallb (fun p => is_json (snd p)) props
  | VUndefined | VNaN | VDate _ => false
  end.

Definition cart_line (batch qty : Z) (unit total : string) : value :=
  VObj [("drugBatchId", VInt batch); ("quantity", VInt qty);
        ("unitPrice", VStr unit); ("totalPrice", VStr total)].

Definition sale_body (items : list value) (total : string)
    (extra : list (string * value)) : value :=
  VObj (extra ++ [("items", VArr items); ("subtotal", VStr total);
                  ("taxAmount", VStr "0.00"); ("totalAmount", VStr total);
                  ("paymentMethod", VStr "cash")])%list.

(** The scenario of the specification: ten of batch 1 at 12.00, paid with
    150.00. *)
Definition ten_of_batch_1 : value :=
  sale_body [cart_line 1 10 "12.00" "120.00"] "120.00"
    [("amountReceived", VInt 150)].

Definition sale_outcome (body : value) (db : DB) : response * DB :=
  post_sales0 cashier noon body db.

(** The same cart, paid with 100.00. *)
Definition underpaid : value :=
  sale_body [cart_line 1 10 "12.00" "120.00"] "120.00"
    [("amountReceived", VInt 100)].


(** A hundred and fifty of batch 1, which holds a hundred. *)
Definition more_than_in_stock : value :=
  sale_body [cart_line 1 150 "12.00" "1800.00"] "1800.00" [].

(** A cart whose second line has a word for a quantity. *)
Definition bad_second_line : value :=
  sale_body
    [cart_line 1 10 "12.00" "120.00";
     VObj [("drugBatchId", VInt 2); ("quantity", VStr "two");
           ("unitPrice", VStr "5.00"); ("totalPrice", VStr "10.00")]]
    "130.00" [].

(** A request without a payment method. *)
Definition no_payment_method : value :=
  VObj [("items", VArr [cart_line 1 10 "12.00" "120.00"]);
        ("subtotal", VStr "120.00"); ("taxAmount", VStr "0.00");
        ("totalAmount", VStr "120.00")].

(** A cart with a line for a batch that does not exist. *)
Definition one_of_batch_99 : value :=
  sale_body [cart_line 1 10 "12.00" "120.00"; cart_line 99 1 "7.00" "7.00"]
    "127.00" [].

Definition empty_cart : value := sale_body [] "0.00" [].
Definition minus_five_of_batch_1 : value :=
  sale_body [cart_line 1 (-5) "12.00" "-60.00"] "-60.00" [].

(** Fifty more of batch AMX001 of drug 1, received from supplier 1.  The
    date travels as JSON has it, as a string. *)
Definition fifty_more : value :=
  VObj [("purchase", VObj [("supplierId", VInt 1); ("totalAmount", VStr "425.00");
                           ("status", VStr "received")]);
        ("items", VArr [VObj [("drugId", VInt 1); ("quantity", VInt 50);
                              ("unitCost", VStr "8.50"); ("totalCost", VStr "425.00");
                              ("batchNumber", VStr "AMX001");
                              ("expiryDate", VStr "2025-12-31T00:00:00.000Z")]])].

(** A purchase without items that names a user and a number of its
    own. *)
Definition forged_purchase : value :=
  VObj [("purchase", VObj [("supplierId", VInt 1); ("totalAmount", VStr "425.00");
                           ("userId", VInt 99);
                           ("purchaseNumber", VStr "PUR-MINE")]);
        ("items", VArr [])].

Definition purchase_of (r : response) : Purchase :=
  match r with
  | Json _ (BPurchase p) => p
  | _ => {| purchase_id := 0; purchase_data := [] |}
  end.

Definition forged_purchase_stored : response * DB :=
  shipped (PostPurchases admin noon forged_purchase) stocked_db.

(** An engine that refuses to store a sale header. *)
Definition refuses_sales (db : DB) (c : call) : bool :=
  match c with CreateSale _ => true | _ => false end.

Definition amoxicillin : Drug :=
  {| drug_id := 1; name := "Amoxicillin"; genericName := Some "Amoxicillin";
     brand := None; barcode := None;
     drug_columns :=
       VObj [("categoryId", VInt 1); ("dosage", VStr "500mg");
             ("form", VStr "Capsules"); ("description", VUndefined);
             ("requiresPrescription", VUndefined); ("isActive", VUndefined)] |}.

Definition found_by (query : string) (db : DB) : list Drug :=
  match fst (searchDrugs never_refuses query db) with
  | Ok found => found
  | Throw _ => []
  end.

Definition drug_of (r : response) : Drug :=
  match r with Json _ (BDrug (Some d)) => d | _ => amoxicillin end.

Definition brand_amoxil : value := VObj [("brand", VStr "Amoxil")].
Definition amoxil_branded : response * DB :=
  step0 (PutDrug admin (Some 1) brand_amoxil) stocked_db.

Definition cetirizine : value := test_drug "Cetirizine" "Cetirizine" "10mg" "Tablets" 2.
Definition cetirizine_created : response * DB :=
  step0 (PostDrugs admin cetirizine) stocked_db.

(** ** More of the storage layer: the reads

    The methods of [DatabaseStorage] that read the purchases. *)

Inductive query :=
| GetPurchase (id : Z).

Section Reads.

(** The engine's verdict on a read. *)
Variable fails : DB -> query -> bool.

Definition ask {A} (q : query) (answer : DB -> A) : M A :=
  fun db => if fails db q then (Throw StorageError, db) else (Ok (answer db), db).

Definition getPurchase (id : Z) : M (option Purchase) :=
  ask (GetPurchase id) (fun db => rows (purchases db) !! id).

End Reads.

Definition never_fails (db : DB) (q : query) : bool := false.

(** ** Vocabulary of the further properties *)

(** A table whose sequence is ahead of its rows and whose rows carry the
    id they are stored under. *)
Definition sound_table {R} (id_of : R -> Z) (t : Table R) : Prop :=
  fresh t /\ forall id r, rows t !! id = Some r -> id_of r = id.

Definition sound (db : DB) : Prop :=
  sound_table drug_id (drugs db)
  /\ sound_table batch_id (drugBatches db)
  /\ sound_table sale_id (sales db)
  /\ sound_table item_id (saleItems db)
  /\ sound_table purchase_id (purchases db)
  /\ sound_table pitem_id (purchaseItems db).

Definition stays_sound (db db' : DB) : Prop := sound db -> sound db'.

(** What a sale commit may do to the tables, however it ends: add sales
    and sale items, and change the quantity of batches. *)
Definition sale_footprint (db db' : DB) : Prop :=
  drugs db' = drugs db
  /\ purchases db' = purchases db
  /\ purchaseItems db' = purchaseItems db
  /\ (forall id s, rows (sales db) !! id = Some s -> rows (sales db') !! id = Some s)
  /\ (forall id i, rows (saleItems db) !! id = Some i ->
                   rows (saleItems db') !! id = Some i)
  /\ (forall id, set_quantity 0 <$> rows (drugBatches db') !! id
                 = set_quantity 0 <$> rows (drugBatches db) !! id).

(** The roles a route asks for, and the user it runs for. *)
Definition gate (op : operation) : option (list string * User) :=
  match op with
  | PostSales _ _ _ | GetDrugsSearch _ => None
  | PostPurchases user _ _ | PostDrugBatches user _ | PostDrugs user _
  | PutDrug user _ _ => Some (["admin"; "pharmacist"], user)
  | DeleteDrugById user _ | PostInitTestData user => Some (["admin"], user)
  end.

(** ** Basic facts *)

Lemma Qred_inject_Z (n : Z) : Qred (inject_Z n) = inject_Z n.
Proof.
  unfold Qred, inject_Z.
  pose proof (Z.ggcd_gcd n 1) as Hg.
  pose proof (Z.ggcd_correct_divisors n 1) as Hd.
  destruct (Z.ggcd n 1) as [g [a b]]. simpl in *.
  rewrite Z.gcd_1_r in Hg. subst g. destruct Hd as [Ha Hb].
  rewrite Z.mul_1_l in Ha, Hb. subst a b. reflexivity.
Qed.

Lemma as_int_VInt (n : Z) : as_int (VInt n) = Some n.
Proof.
  unfold as_int, VInt. cbv zeta. rewrite Qred_inject_Z. reflexivity.
Qed.

Lemma prop_Ok v k x : prop v k = Ok x -> readable v = true /\ x = field v k.
Proof. unfold field. destruct v; cbn; intros [= <-]; auto. Qed.

Lemma prop_readable v k : readable v = true -> prop v k = Ok (field v k).
Proof. unfold field. by destruct v. Qed.

Lemma prop_unreadable v k : readable v = false -> prop v k = Throw TypeError.
Proof. by destruct v. Qed.

Lemma bind_Ok {A B} (m : M A) (k : A -> M B) db b db' :
  bind m k db = (Ok b, db') ->
  exists a db1, m db = (Ok a, db1) /\ k a db1 = (Ok b, db').
Proof.
  unfold bind. destruct (m db) as [[a|e] db1]; intros H; [eauto | discriminate].
Qed.

Lemma lift_Ok {A} (r : result A) db a db' :
  lift r db = (Ok a, db') -> r = Ok a /\ db' = db.
Proof. unfold lift. intros [= -> ->]. auto. Qed.

Lemma engine_Ok {A} refuses (c : call) (m : M A) db a db' :
  engine refuses c m db = (Ok a, db') ->
  refuses db c = false /\ m db = (Ok a, db').
Proof. unfold engine. destruct (refuses db c); [discriminate | auto]. Qed.

Lemma parse_Ok {A} (schema : A -> bool) x db a db' :
  parse schema x db = (Ok a, db') -> schema x = true /\ a = x /\ db' = db.
Proof.
  unfold parse. destruct (schema x); [intros [= -> ->]; auto | discriminate].
Qed.

Ltac inv_bind H :=
  let a := fresh "a" in
  let d := fresh "db" in
  let H1 := fresh "Hm" in
  apply bind_Ok in H as (a & d & H1 & H).

(** ** Frames *)

Section Frame.

Context (P : DB -> DB -> Prop) `{!PreOrder P}.

Lemma frame_ret {A} (a : A) : frame P (ret a).
Proof. intros db. reflexivity. Qed.

Lemma frame_throw {A} e : frame P (@throw A e).
Proof. intros db. reflexivity. Qed.

Lemma frame_lift {A} (r : result A) : frame P (lift r).
Proof. intros db. reflexivity. Qed.

Lemma frame_bind {A B} (m : M A) (k : A -> M B) :
  frame P m -> (forall a, frame P (k a)) -> frame P (bind m k).
Proof.
  intros Hm Hk db. unfold bind. specialize (Hm db).
  destruct (m db) as [[a|e] db1]; cbn in *; [|done].
  etrans; [exact Hm | apply Hk].
Qed.

Lemma frame_parse_bind {A B} (schema : A -> bool) x (k : A -> M B) :
  frame P (k x) -> frame P (bind (parse schema x) k).
Proof.
  intros Hk db. unfold bind, parse. destruct (schema x); cbn; [apply Hk | reflexivity].
Qed.

Lemma frame_engine {A} refuses c (m : M A) :
  frame P m -> frame P (engine refuses c m).
Proof.
  intros Hm db. unfold engine. destruct (refuses db c); cbn; [reflexivity | apply Hm].
Qed.

Lemma frame_try_ignore {A} (m : M A) : frame P m -> frame P (try_ignore m).
Proof. intros Hm db. apply Hm. Qed.

Lemma frame_try_each {A B} (f : A -> M B) l :
  (forall a, frame P (f a)) -> frame P (try_each f l).
Proof.
  intros Hf. induction l as [|x l IH]; cbn [try_each].
  - apply frame_ret.
  - apply frame_bind; [apply frame_try_ignore, Hf | intros _; exact IH].
Qed.

End Frame.

(** ** The sale commit *)

Section Properties.

Variable insertSaleSchema : InsertSale -> bool.
Variable insertSaleItemSchema : InsertSaleItem -> bool.
Variable refuses : DB -> call -> bool.
Variable js_minus_coerce : value -> value -> value.

Local Abbreviation loop := (sale_items_loop insertSaleItemSchema refuses js_minus_coerce).
Local Abbreviation commit := (sale_commit insertSaleSchema insertSaleItemSchema refuses js_minus_coerce).
Local Abbreviation handler := (post_sales insertSaleSchema insertSaleItemSchema refuses js_minus_coerce).
Local Abbreviation view_for := (sale_view js_minus_coerce).

Lemma createSaleItem_Ok c db row db1 :
  createSaleItem refuses c db = (Ok row, db1) ->
  exists s b q,
    as_int (saleId c) = Some s /\ as_int (drugBatchId c) = Some b
    /\ as_int (item_quantity c) = Some q
    /\ rows (saleItems db) !! seq (saleItems db) = None
    /\ row = {| item_id := seq (saleItems db); item_saleId := s;
                item_drugBatchId := b; item_qty := q;
                item_unitPrice := unitPrice c; item_totalPrice := totalPrice c |}
    /\ db1 = set_saleItems
               {| rows := <[seq (saleItems db) := row]> (rows (saleItems db));
                  seq := seq (saleItems db) + 1 |} db.
Proof.
  intros H. apply engine_Ok in H as [_ H].
  destruct (as_int (saleId c)) as [s|]; [|discriminate].
  destruct (as_int (drugBatchId c)) as [b|]; [|discriminate].
  destruct (as_int (item_quantity c)) as [q|]; [|discriminate].
  unfold insert_row in H.
  destruct (rows (saleItems db) !! seq (saleItems db)) eqn:E; [discriminate|].
  injection H as <- <-. exists s, b, q. repeat split; auto.
Qed.

Lemma updateDrugBatch_Ok id qty n q db r db1 :
  as_int id = Some n -> as_int qty = Some q ->
  updateDrugBatch refuses id qty db = (Ok r, db1) ->
  db1 = set_drugBatches
          {| rows := alter (set_quantity q) n (rows (drugBatches db));
             seq := seq (drugBatches db) |} db.
Proof.
  intros Hn Hq H. apply engine_Ok in H as [_ H].
  rewrite Hn, Hq in H. by injection H as _ <-.
Qed.

Lemma js_minus_int a b x y :
  as_int a = Some x -> as_int b = Some y ->
  js_minus js_minus_coerce a b = VInt (x - y).
Proof. unfold js_minus. by intros -> ->. Qed.

Lemma sale_items_loop_cons newSale item rest acc db r db' :
  loop newSale (item :: rest) acc db = (Ok r, db') ->
  exists n q row,
    readable item = true
    /\ insertSaleItemSchema (line (sale_id newSale) item) = true
    /\ line_batch item = Some n /\ line_quantity item = q
    /\ as_int (field item "quantity") = Some q
    /\ item_drugBatchId row = n /\ item_qty row = q
    /\ rows (saleItems db) !! seq (saleItems db) = None
    /\ item_id row = seq (saleItems db)
    /\ loop newSale rest (acc ++ [row])
         (set_drugBatches (sell n q (drugBatches db))
            (set_saleItems
               {| rows := <[seq (saleItems db) := row]> (rows (saleItems db));
                  seq := seq (saleItems db) + 1 |} db)) = (Ok r, db').
Proof.
  intros H. cbn [sale_items_loop] in H.
  inv_bind H. apply lift_Ok in Hm as [Hb ->].
  inv_bind H. apply lift_Ok in Hm as [Hq ->].
  inv_bind H. apply lift_Ok in Hm as [Hu ->].
  inv_bind H. apply lift_Ok in Hm as [Ht ->].
  inv_bind H. apply parse_Ok in Hm as (Hs & -> & ->).
  inv_bind H. apply createSaleItem_Ok in Hm as (s & b & q & ? & Eb & Eq & ? & Erow & ->).
  cbn in Eb, Eq.
  inv_bind H. apply engine_Ok in Hm as [_ Hm]. cbn in Hm.
  rewrite Eb in Hm. injection Hm as <- <-.
  exists b, q, a3.
  apply prop_Ok in Hb as [Hr ->]. apply prop_Ok in Hq as [_ ->].
  apply prop_Ok in Hu as [_ ->]. apply prop_Ok in Ht as [_ ->].
  assert (line_quantity item = q) by (unfold line_quantity; by rewrite Eq).
  assert (item_drugBatchId a3 = b /\ item_qty a3 = q /\ item_id a3 = seq (saleItems db))
    as (? & ? & ?) by (by subst a3).
  repeat (split; [done|]).
  unfold sell. destruct (rows (drugBatches db) !! b) as [batch|] eqn:Elook.
  - inv_bind H.
    erewrite js_minus_int in Hm by (apply as_int_VInt || exact Eq).
    eapply updateDrugBatch_Ok in Hm; [|exact Eb|apply as_int_VInt].
    subst. exact H.
  - by destruct db.
Qed.

Lemma getDrugBatch_frame P `{!PreOrder P} id : frame P (getDrugBatch refuses id).
Proof.
  apply frame_engine; [done|]. intros db. destruct (as_int id); reflexivity.
Qed.

Lemma sale_commit_Ok user clk body db view db' :
  commit user clk body db = (Ok view, db') ->
  let newSale := sale_row (header user clk body) (seq (sales db)) in
  exists items,
    cart body = Some items
    /\ readable body = true
    /\ insertSaleSchema (header user clk body) = true
    /\ rows (sales db) !! seq (sales db) = None
    /\ loop newSale items [] (with_sale newSale db) = (Ok (view_items view), db')
    /\ view = view_for newSale body (view_items view).
Proof.
  intros H newSale. unfold sale_commit in H.
  inv_bind H. apply lift_Ok in Hm as [Hitems ->].
  apply prop_Ok in Hitems as [Hr ->].
  do 7 (inv_bind H; apply lift_Ok in Hm as [Hp ->]; apply prop_Ok in Hp as [_ ->]).
  inv_bind H. apply parse_Ok in Hm as (Hs & -> & ->).
  inv_bind H. apply engine_Ok in Hm as [_ Hm]. unfold insert_row in Hm.
  destruct (rows (sales db) !! seq (sales db)) eqn:Efree; [discriminate|].
  injection Hm as <- <-.
  inv_bind H. apply lift_Ok in Hm as [Hit ->].
  inv_bind H. injection H as <- <-.
  eexists. split.
  { unfold cart. rewrite (prop_readable _ _ Hr), Hit. reflexivity. }
  repeat (split; [done|]). done.
Qed.

Lemma post_sales_cases user clk body db :
  (exists view db', commit user clk body db = (Ok view, db')
                    /\ handler user clk body db = (Json 201 (BSale view), db'))
  \/ (exists e db', commit user clk body db = (Throw e, db')
                    /\ handler user clk body db = (internal_error, db')).
Proof.
  unfold post_sales. destruct (commit user clk body db) as [[view|e] db'].
  - left. by exists view, db'.
  - right. by exists e, db'.
Qed.

(** *** The header the handler builds

    The handler hands [discountAmount: 0], a number, to the validator of
    the header.  A validator that takes the decimal columns as strings
    rejects every header the handler builds, before anything is written. *)

Lemma header_is_rejected user clk body :
  decimal_columns_are_text insertSaleSchema ->
  insertSaleSchema (header user clk body) = false.
Proof.
  intros Htext. destruct (insertSaleSchema (header user clk body)) eqn:Hs; [|done].
  apply Htext in Hs as (_ & _ & Hd & _). discriminate Hd.
Qed.

Lemma sale_commit_is_rejected user clk body db :
  decimal_columns_are_text insertSaleSchema ->
  handler user clk body db = (internal_error, db).
Proof.
  intros Htext. unfold post_sales, internal_error.
  destruct (readable body) eqn:Hr.
  - unfold sale_commit.
    do 8 (unfold bind at 1; rewrite (prop_readable _ _ Hr); cbn [lift]).
    fold (header user clk body). unfold bind at 1, parse at 1.
    by rewrite header_is_rejected.
  - unfold sale_commit, bind. by rewrite (prop_unreadable _ _ Hr).
Qed.

(** C2.  A request to the sale commit makes no batch negative: no batch
    is negative afterwards if none was before, and every batch row that
    the request has written holds a quantity of zero or more.  The loop
    that writes [batch.quantity - item.quantity] has no check of its own;
    the header is rejected before it is reached. *)
Theorem no_batch_goes_negative user clk body db :
  decimal_columns_are_text insertSaleSchema ->
  (no_negative_batch db -> no_negative_batch (snd (handler user clk body db)))
  /\ (forall id b,
        rows (drugBatches (snd (handler user clk body db))) !! id = Some b ->
        rows (drugBatches db) !! id = Some b \/ 0 <= quantity b).
Proof.
  intros Htext. rewrite sale_commit_is_rejected by done.
  split; [done|]. intros id b Hb. by left.
Qed.

(** C3.  A request of invalid shape -- a cart that cannot be read, a
    header the validator rejects, or a cart line the validator of the
    lines rejects -- is answered with the failure, and nothing is
    written. *)
Theorem invalid_request_writes_nothing user clk body db :
  decimal_columns_are_text insertSaleSchema ->
  cart body = None
  \/ insertSaleSchema (header user clk body) = false
  \/ (exists items,
        cart body = Some items
        /\ Exists (fun item =>
                     insertSaleItemSchema (line (seq (sales db)) item) = false)
             items) ->
  handler user clk body db = (internal_error, db).
Proof. intros Htext _. by apply sale_commit_is_rejected. Qed.

(** C9.  A request whose cart is not in order -- it cannot be read, it is
    empty, or one of its lines is for a batch that is not there or for a
    quantity that is not a positive whole number -- is rejected, and
    nothing is written. *)
Theorem disorderly_cart_is_rejected user clk body db :
  decimal_columns_are_text insertSaleSchema ->
  ~ orderly_cart db body ->
  handler user clk body db = (internal_error, db).
Proof. intros Htext _. by apply sale_commit_is_rejected. Qed.

(** *** A line for a batch that is not there *)

Lemma sell_is_Some n q t m : is_Some (rows (sell n q t) !! m) <-> is_Some (rows t !! m).
Proof.
  unfold sell. destruct (rows t !! n) as [b|] eqn:Hb; [|done]. cbn.
  destruct (decide (n = m)) as [->|Hne].
  - rewrite lookup_alter_eq, Hb. cbn. split; intros _; eauto.
  - by rewrite lookup_alter_ne.
Qed.

#[local] Instance items_are_of_batches_preorder : PreOrder items_are_of_batches.
Proof.
  split.
  - intros db. split; [by left | done].
  - intros a b c [Hab1 Hab2] [Hbc1 Hbc2]. split.
    + intros id row Hrow. destruct (Hbc1 id row Hrow) as [Hb|Hb].
      * by apply Hab1.
      * right. by apply Hab2.
    + intros n. by rewrite Hbc2.
Qed.

Section Reference.

Hypothesis enforced : references_batches refuses.

Lemma createSaleItem_of_a_batch c : frame items_are_of_batches (createSaleItem refuses c).
Proof.
  intros db. unfold createSaleItem, engine.
  destruct (refuses db (CreateSaleItem c)) eqn:Hacc; [reflexivity|].
  destruct (as_int (saleId c)) as [s|]; [|reflexivity].
  destruct (as_int (drugBatchId c)) as [b|] eqn:Hb; [|reflexivity].
  destruct (as_int (item_quantity c)) as [q|]; [|reflexivity].
  unfold insert_row.
  destruct (rows (saleItems db) !! seq (saleItems db)) eqn:Hfree; cbn;
    (split; [|done]); intros id row Hrow; cbn in Hrow; [by left|].
  destruct (decide (seq (saleItems db) = id)) as [<-|Hne].
  - rewrite lookup_insert_eq in Hrow. injection Hrow as <-. right. cbn.
    destruct (rows (drugBatches db) !! b) eqn:Hbatch; [done|].
    rewrite (enforced db c b Hb Hbatch) in Hacc. discriminate.
  - rewrite lookup_insert_ne in Hrow by done. by left.
Qed.

Lemma createSale_of_a_batch sale : frame items_are_of_batches (createSale refuses sale).
Proof.
  apply frame_engine; [apply _|]. intros db. unfold insert_row.
  destruct (rows (sales db) !! seq (sales db)); cbn; (split; [by left | done]).
Qed.

Lemma updateDrugBatch_of_a_batch id q :
  frame items_are_of_batches (updateDrugBatch refuses id q).
Proof.
  apply frame_engine; [apply _|]. intros db.
  destruct (as_int id) as [n|]; [|reflexivity].
  destruct (as_int q) as [x|]; [|reflexivity]. cbn.
  split; [by left|]. intros m. cbn.
  destruct (decide (n = m)) as [->|Hne].
  - rewrite lookup_alter_eq. by rewrite fmap_is_Some.
  - by rewrite lookup_alter_ne.
Qed.

Lemma sale_items_loop_of_batches newSale items acc :
  frame items_are_of_batches (loop newSale items acc).
Proof.
  revert acc. induction items as [|item rest IH]; intros acc; cbn [sale_items_loop].
  - apply frame_ret, _.
  - do 4 (apply frame_bind; [apply _ | apply frame_lift, _ | intros ?]).
    apply frame_parse_bind; [apply _|].
    apply frame_bind; [apply _ | apply createSaleItem_of_a_batch | intros ?].
    apply frame_bind; [apply _ | apply getDrugBatch_frame, _ | intros [b|]].
    + apply frame_bind; [apply _ | apply updateDrugBatch_of_a_batch | intros ?].
      apply IH.
    + apply IH.
Qed.

Lemma sale_commit_of_batches user clk body :
  frame items_are_of_batches (commit user clk body).
Proof.
  unfold sale_commit.
  do 8 (apply frame_bind; [apply _ | apply frame_lift, _ | intros ?]).
  apply frame_parse_bind; [apply _|].
  apply frame_bind; [apply _ | apply createSale_of_a_batch | intros ?].
  apply frame_bind; [apply _ | apply frame_lift, _ | intros ?].
  apply frame_bind; [apply _ | apply sale_items_loop_of_batches | intros ?].
  apply frame_ret, _.
Qed.

(** A loop that runs to its end has met no line for a batch that is not
    there. *)
Lemma sale_items_loop_batches_exist newSale items acc db r db' :
  loop newSale items acc db = (Ok r, db') ->
  forall item n, item ∈ items -> line_batch item = Some n ->
                 is_Some (rows (drugBatches db) !! n).
Proof.
  revert acc db. induction items as [|item rest IH]; intros acc db H it n Hin Hn.
  - by apply elem_of_nil in Hin.
  - pose proof H as H0. cbn [sale_items_loop] in H0.
    inv_bind H0. apply lift_Ok in Hm as [Hp ->]. apply prop_Ok in Hp as [_ ->].
    do 3 (inv_bind H0; apply lift_Ok in Hm as [_ ->]).
    inv_bind H0. apply parse_Ok in Hm as (_ & -> & ->).
    inv_bind H0. apply engine_Ok in Hm as [Hacc Hm]. clear H0.
    apply sale_items_loop_cons in H
      as (b & q & row & _ & _ & Hb & _ & _ & _ & _ & _ & _ & H).
    assert (is_Some (rows (drugBatches db) !! b)) as Hthere.
    { destruct (rows (drugBatches db) !! b) eqn:Hbatch; [done|].
      match type of Hacc with
      | refuses _ (CreateSaleItem ?c) = _ =>
          rewrite (enforced db c b Hb Hbatch) in Hacc
      end. discriminate. }
    apply elem_of_cons in Hin as [->|Hin].
    + rewrite Hb in Hn. by injection Hn as <-.
    + specialize (IH _ _ H it n Hin Hn). cbn in IH.
      by apply sell_is_Some in IH.
Qed.

(** C4, as the code has it.  A cart line for a batch that is not there is
    not skipped.  The schema declares the batch of a sale item a reference
    to the batches, and the handler inserts the sale item before it looks
    the batch up: the engine refuses the insert, the commit is answered
    with the failure, and no sale item of that batch is stored. *)
Theorem line_for_a_missing_batch_fails_the_commit user clk body db items item n :
  cart body = Some items ->
  item ∈ items ->
  line_batch item = Some n ->
  rows (drugBatches db) !! n = None ->
  fst (handler user clk body db) = internal_error
  /\ (forall id row,
        rows (saleItems (snd (handler user clk body db))) !! id = Some row ->
        rows (saleItems db) !! id = Some row \/ item_drugBatchId row <> n).
Proof.
  intros Hcart Hin Hn Hmissing. split.
  - destruct (post_sales_cases user clk body db)
      as [(view & db' & H & _)|(e & db' & _ & ->)]; [|done].
    apply sale_commit_Ok in H as (items' & Hcart' & _ & _ & _ & H & _).
    assert (items' = items) as -> by congruence.
    eapply sale_items_loop_batches_exist in H; [|done..].
    destruct db; cbn in *. rewrite Hmissing in H. by destruct H.
  - intros id row Hrow.
    assert (snd (handler user clk body db) = snd (commit user clk body db)) as E.
    { unfold post_sales. by destruct (commit user clk body db) as [[?|?] ?]. }
    rewrite E in Hrow.
    destruct (sale_commit_of_batches user clk body db) as [Hitems _].
    destruct (Hitems id row Hrow) as [?|Hthere]; [by left|]. right.
    intros E'. rewrite E', Hmissing in Hthere. by destruct Hthere.
Qed.

End Reference.

(** C10. However the commit fails -- a validator rejects the request, the
    storage layer throws, or a value cannot be read -- the handler answers
    500 with the one message, and leaves the writes made so far. *)
Theorem failed_commit_answers_500 user clk body db e db' :
  commit user clk body db = (Throw e, db') ->
  handler user clk body db
  = (Json 500 (BMessage "Internal server error"), db').
Proof. unfold post_sales. by intros ->. Qed.

End Properties.

(** ** Who writes to the batches *)

Section Inventory.

Variable insertSaleSchema : InsertSale -> bool.
Variable insertSaleItemSchema : InsertSaleItem -> bool.
Variable insertPurchaseSchema : list (string * value) -> bool.
Variable insertPurchaseItemSchema : list (string * value) -> bool.
Variable insertDrugBatchSchema : value -> bool.
Variable insertDrugSchema : value -> bool.
Variable insertDrugSchema_partial : value -> bool.
Variable refuses : DB -> call -> bool.
Variable js_minus_coerce : value -> value -> value.

Local Abbreviation run :=
  (step insertSaleSchema insertSaleItemSchema insertPurchaseSchema
     insertPurchaseItemSchema insertDrugBatchSchema insertDrugSchema
     insertDrugSchema_partial refuses js_minus_coerce).

#[local] Instance same_batches_preorder : PreOrder same_batches.
Proof. split; [done|]. intros a b c H1 H2. unfold same_batches in *. congruence. Qed.

#[local] Instance batches_kept_preorder : PreOrder batches_kept.
Proof.
  split.
  - intros db id b H. exact H.
  - intros a b c H1 H2 id x Hx. apply H2, H1, Hx.
Qed.

Lemma same_batches_kept db db' : same_batches db db' -> batches_kept db db'.
Proof. intros H id b. by rewrite H. Qed.

Lemma frame_weaken {A} (P Q : DB -> DB -> Prop) (m : M A) :
  (forall db db', P db db' -> Q db db') -> frame P m -> frame Q m.
Proof. intros HPQ Hm db. apply HPQ, Hm. Qed.

Lemma createPurchase_frame p : frame same_batches (createPurchase refuses p).
Proof.
  apply frame_engine; [apply _|]. intros db. unfold insert_row.
  by destruct (rows (purchases db) !! seq (purchases db)).
Qed.

Lemma createPurchaseItem_frame p : frame same_batches (createPurchaseItem refuses p).
Proof.
  apply frame_engine; [apply _|]. intros db. unfold insert_row.
  by destruct (rows (purchaseItems db) !! seq (purchaseItems db)).
Qed.

Lemma purchase_items_loop_frame newPurchase items :
  frame same_batches
    (purchase_items_loop insertPurchaseItemSchema refuses newPurchase items).
Proof.
  induction items as [|item rest IH]; cbn [purchase_items_loop].
  - apply frame_ret, _.
  - apply frame_parse_bind; [apply _|].
    apply frame_bind; [apply _ | apply createPurchaseItem_frame | intros _; apply IH].
Qed.

Lemma purchase_commit_frame user clk body :
  frame same_batches
    (purchase_commit insertPurchaseSchema insertPurchaseItemSchema refuses
       user clk body).
Proof.
  unfold purchase_commit.
  do 2 (apply frame_bind; [apply _ | apply frame_lift, _ | intros ?]).
  apply frame_parse_bind; [apply _|].
  apply frame_bind; [apply _ | apply createPurchase_frame | intros ?].
  apply frame_bind; [apply _ | apply frame_lift, _ | intros ?].
  apply frame_bind; [apply _ | apply purchase_items_loop_frame | intros ?].
  apply frame_ret, _.
Qed.

Lemma respond_snd {A} code (payload : A -> body) (m : M A) db :
  snd (respond code payload m db) = snd (m db).
Proof. unfold respond. by destruct (m db) as [[?|?] ?]. Qed.

Lemma requireRole_frame (P : DB -> DB -> Prop) `{!PreOrder P} roles user h db :
  P db (snd (h db)) -> P db (snd (requireRole roles user h db)).
Proof. unfold requireRole. by case_bool_decide. Qed.

Lemma createDrugBatch_frame batch : frame batches_kept (createDrugBatch refuses batch).
Proof.
  apply frame_engine; [apply _|]. intros db. cbv zeta.
  destruct (as_int (assoc "quantity" (spread batch))); [|reflexivity].
  unfold insert_row.
  destruct (rows (drugBatches db) !! seq (drugBatches db)) eqn:E;
    intros id b Hb; cbn; [done|].
  rewrite lookup_insert_ne; [done|]. congruence.
Qed.

Lemma createDrug_frame drug : frame same_batches (createDrug refuses drug).
Proof.
  apply frame_engine; [apply _|]. intros db. cbv zeta.
  unfold insert_row. repeat case_match; simplify_eq; done.
Qed.

Lemma updateDrug_frame id drug : frame same_batches (updateDrug refuses id drug).
Proof.
  unfold updateDrug. destruct (no_values (spread drug)); [apply frame_throw, _|].
  apply frame_engine; [apply _|]. intros db. cbv zeta.
  repeat case_match; simplify_eq; done.
Qed.

Lemma deleteDrug_frame id : frame same_batches (deleteDrug refuses id).
Proof. apply frame_engine; [apply _|]. intros db. by destruct (as_int id). Qed.

Lemma searchDrugs_frame q : frame same_batches (searchDrugs refuses q).
Proof. apply frame_engine; [apply _|]. by intros db. Qed.

(** C7, as the code has it.  A purchase commit leaves the batch table as
    it is, whatever it stores: nothing in the route receives stock.  No
    route other than the sale commit changes a batch there is; creating a
    batch, or the test data, adds rows. *)
Theorem only_the_sale_commit_changes_a_batch :
  (forall user clk body db,
     drugBatches (snd (run (PostPurchases user clk body) db)) = drugBatches db)
  /\ (forall op db id b,
        is_sale op = false ->
        rows (drugBatches db) !! id = Some b ->
        rows (drugBatches (snd (run op db))) !! id = Some b).
Proof.
  assert (forall user clk body db,
            same_batches db (snd (run (PostPurchases user clk body) db))) as Hp.
  { intros. cbn [step]. unfold post_purchases.
    apply requireRole_frame; [apply _|]. rewrite respond_snd.
    apply purchase_commit_frame. }
  split; [exact Hp|].
  intros op db id b Hop. revert id b. change (batches_kept db (snd (run op db))).
  destruct op as [| user clk body | user body | user body | user pid body
                 | user pid | q | user]; [done|..]; cbn [step].
  - apply same_batches_kept, Hp.
  - unfold post_drug_batches. apply requireRole_frame; [apply _|].
    rewrite respond_snd. revert db.
    apply frame_parse_bind; [apply _ | apply createDrugBatch_frame].
  - unfold post_drugs. apply requireRole_frame; [apply _|].
    rewrite respond_snd. apply same_batches_kept. revert db.
    apply frame_parse_bind; [apply _ | apply createDrug_frame].
  - unfold put_drug. apply requireRole_frame; [apply _|].
    rewrite respond_snd. apply same_batches_kept. revert db.
    apply frame_parse_bind; [apply _ | apply updateDrug_frame].
  - unfold delete_drug. apply requireRole_frame; [apply _|].
    rewrite respond_snd. apply same_batches_kept. apply deleteDrug_frame.
  - unfold get_drugs_search. destruct q as [[|]|]; try done.
    rewrite respond_snd. apply same_batches_kept. apply searchDrugs_frame.
  - unfold post_init_test_data. apply requireRole_frame; [apply _|].
    rewrite respond_snd. revert db.
    apply frame_bind; [apply _ | | intros _].
    + apply frame_try_each; [apply _|]. intros d.
      eapply frame_weaken; [apply same_batches_kept | apply createDrug_frame].
    + apply frame_try_each; [apply _|]. intros d. apply createDrugBatch_frame.
Qed.

End Inventory.

(** ** The drug search *)

Lemma like_percent s : like "%" s = true.
Proof. induction s as [|c s IH]; [done|]. cbn in *. exact IH. Qed.

Lemma like_star_unfold p s :
  like (String "%" p) s
  = like p s || skip_one (like (String "%" p)) s.
Proof. by destruct s. Qed.

Lemma like_star p s :
  like (String "%" p) s = true <-> exists a s', s = (a ++ s')%string /\ like p s' = true.
Proof.
  split.
  - induction s as [|c s IH]; rewrite like_star_unfold; intros H.
    + exists EmptyString, EmptyString. split; [done|]. by rewrite orb_false_r in H.
    + apply orb_true_iff in H as [H|H].
      * by exists EmptyString, (String c s).
      * destruct (IH H) as (a & s' & -> & Hs'). by exists (String c a), s'.
  - intros (a & s' & -> & H). induction a as [|c a IH]; rewrite like_star_unfold.
    + change (EmptyString +:+ s') with s'. by rewrite H.
    + change (String c a +:+ s') with (String c (a +:+ s')).
      apply orb_true_iff. right. exact IH.
Qed.

Lemma like_plain q r s :
  plain q = true ->
  like (q ++ r) s = true <-> exists s', s = (q ++ s')%string /\ like r s' = true.
Proof.
  revert s. induction q as [|c q IH]; intros s Hq.
  - cbn. split; [by exists s | by intros (s' & -> & H)].
  - cbn in Hq. repeat (apply andb_true_iff in Hq as [Hq ?]).
    change (String c q +:+ r) with (String c (q +:+ r)). cbn [like].
    destruct (Ascii.eqb c "%"); [done|]. destruct (Ascii.eqb c "_"); [done|].
    destruct (Ascii.eqb c "\"); [done|].
    destruct s as [|c' s]; cbn.
    + split; [done | by intros (s' & ? & _)].
    + rewrite andb_true_iff, IH by done. rewrite Ascii.eqb_eq. split.
      * intros (-> & s' & -> & H'). by exists s'.
      * intros (s' & [= -> ->] & H'). split; [done | by exists s'].
Qed.

(** On a plain query the pattern [%query%] finds the strings in which the
    query occurs. *)
Lemma like_contains q s :
  plain q = true -> like ("%" ++ q ++ "%") s = true <-> contains q s.
Proof.
  intros Hq. change ("%" ++ q ++ "%")%string with (String "%" (q ++ "%")).
  rewrite like_star. unfold contains. split.
  - intros (a & s' & -> & H). apply like_plain in H as (b & -> & _); [|done].
    by exists a, b.
  - intros (a & b & ->). exists a, (q ++ b)%string. split; [done|].
    apply like_plain; [done|]. exists b. split; [done | apply like_percent].
Qed.

(** C8, as the code has it.  For a query without [%], [_] and backslash
    the search returns exactly the drugs in whose name, generic name, brand
    or barcode the query occurs, letter case included: the comparison is
    [LIKE], which tells upper from lower case. *)
Theorem search_finds_the_drugs_containing_the_query
    refuses query db found db' :
  plain query = true ->
  searchDrugs refuses query db = (Ok found, db') ->
  forall d,
    d ∈ found
    <-> (exists id, rows (drugs db) !! id = Some d)
        /\ (contains query (name d)
            \/ column_contains query (genericName d)
            \/ column_contains query (brand d)
            \/ column_contains query (barcode d)).
Proof.
  intros Hq H d. apply engine_Ok in H as [_ H]. injection H as <- _.
  rewrite list_elem_of_filter, list_elem_of_fmap.
  assert (forall column, like_column column ("%" ++ query ++ "%") = true
                         <-> column_contains query column) as Hcol.
  { intros [s|]; cbn; [by apply like_contains | done]. }
  unfold drug_matches. rewrite !orb_true_iff, !Hcol, like_contains by done.
  split.
  - intros (Hm & [id d'] & -> & Hin). apply elem_of_map_to_list in Hin.
    split; [by exists id | tauto].
  - intros ((id & Hin) & Hm). split; [tauto|].
    exists (id, d). split; [done | by apply elem_of_map_to_list].
Qed.

(** ** The claims on the concrete backend *)

Lemma never_refuses_accepts_all : accepts_all never_refuses.
Proof. intros db c. reflexivity. Qed.

Lemma fresh_empty {R} (t : Table R) : rows t = ∅ -> fresh t.
Proof. intros E id _. rewrite E. apply lookup_empty. Qed.

(** C8 fails: "amox" occurs in "Amoxicillin" when case is ignored, and the
    search for it finds nothing. *)
Lemma search_tells_case :
  name <$> rows (drugs stocked_db) !! 1 = Some "Amoxicillin"
  /\ contains_ignoring_case "amox" "Amoxicillin"
  /\ fst (searchDrugs never_refuses "amox" stocked_db) = Ok [].
Proof.
  split; [vm_compute; reflexivity|]. split; [|vm_compute; reflexivity].
  exists EmptyString, "icillin". vm_compute. reflexivity.
Qed.

(** C8 as amended, on the scenario: "moxi" finds Amoxicillin. *)
Lemma moxi_finds_amoxicillin :
  amoxicillin ∈ found_by "moxi" stocked_db.
Proof.
  apply (search_finds_the_drugs_containing_the_query
           never_refuses "moxi" stocked_db (found_by "moxi" stocked_db) stocked_db).
  - reflexivity.
  - vm_compute. reflexivity.
  - split.
    + exists 1. vm_compute. reflexivity.
    + left. exists "A", "cillin". reflexivity.
Defined.

(** *** The sale commit as shipped *)

Lemma shape_sale_takes_text : decimal_columns_are_text shape_sale.
Proof.
  intros s H. unfold shape_sale, is_decimal in H.
  repeat (apply andb_true_iff in H as [H ?]). auto.
Qed.

Lemma constraints_reference_batches : references_batches constraints.
Proof.
  intros db i n Hn Hmissing. cbn.
  assert (row_of (drugBatches db) (drugBatchId i) = false) as ->.
  { unfold row_of. by rewrite Hn, Hmissing. }
  by rewrite andb_false_r.
Qed.

Lemma stocked_db_has_no_negative_batch : no_negative_batch stocked_db.
Proof.
  unfold no_negative_batch. apply (bool_decide_unpack _). vm_compute. exact I.
Qed.

(** C1 fails in the code.  The scenario of the specification -- ten of
    batch 1, which holds a hundred -- is answered 500 and nothing is
    written: the batch still holds a hundred, not ninety. *)
Theorem the_scenario_is_not_committed :
  is_json ten_of_batch_1 = true
  /\ quantity_of stocked_db 1 = Some 100
  /\ shipped (PostSales cashier noon ten_of_batch_1) stocked_db
     = (internal_error, stocked_db).
Proof.
  split; [reflexivity|]. split; [vm_compute; reflexivity|].
  apply sale_commit_is_rejected, shape_sale_takes_text.
Qed.

(** C2 on a request for more than there is: a hundred and fifty of batch
    1, which holds a hundred. *)
Lemma more_than_in_stock_leaves_no_negative_batch :
  no_negative_batch
    (snd (shipped (PostSales cashier noon more_than_in_stock) stocked_db))
  /\ (forall id b,
        rows (drugBatches
                (snd (shipped (PostSales cashier noon more_than_in_stock) stocked_db)))
          !! id = Some b ->
        rows (drugBatches stocked_db) !! id = Some b \/ 0 <= quantity b).
Proof.
  destruct (no_batch_goes_negative shape_sale shape_sale_item constraints minus_nan
              cashier noon more_than_in_stock stocked_db shape_sale_takes_text)
    as [Hkept Hwritten].
  split; [apply Hkept, stocked_db_has_no_negative_batch | exact Hwritten].
Defined.

(** C3 on the cart whose second line has a word for a quantity. *)
Lemma bad_second_line_writes_nothing :
  shipped (PostSales cashier noon bad_second_line) stocked_db
  = (internal_error, stocked_db).
Proof.
  apply (invalid_request_writes_nothing shape_sale shape_sale_item constraints
           minus_nan cashier noon bad_second_line stocked_db).
  - apply shape_sale_takes_text.
  - right. right.
    exists [cart_line 1 10 "12.00" "120.00";
            VObj [("drugBatchId", VInt 2); ("quantity", VStr "two");
                  ("unitPrice", VStr "5.00"); ("totalPrice", VStr "10.00")]].
    split; [vm_compute; reflexivity|].
    apply Exists_cons_tl, Exists_cons_hd. vm_compute. reflexivity.
Defined.

(** C4 fails: the cart has a line for batch 99, which is not there; the
    commit does not succeed and no sale item is created. *)
Lemma line_for_batch_99_is_not_skipped :
  is_json one_of_batch_99 = true
  /\ rows (drugBatches stocked_db) !! 99 = None
  /\ shipped (PostSales cashier noon one_of_batch_99) stocked_db
     = (internal_error, stocked_db)
  /\ rows (saleItems stocked_db) = ∅.
Proof.
  split; [reflexivity|]. split; [vm_compute; reflexivity|].
  split; [|vm_compute; reflexivity].
  apply sale_commit_is_rejected, shape_sale_takes_text.
Qed.

(** C4 as amended, on that cart. *)
Lemma line_for_batch_99_fails_the_commit :
  fst (shipped (PostSales cashier noon one_of_batch_99) stocked_db) = internal_error
  /\ (forall id row,
        rows (saleItems
                (snd (shipped (PostSales cashier noon one_of_batch_99) stocked_db)))
          !! id = Some row ->
        rows (saleItems stocked_db) !! id = Some row \/ item_drugBatchId row <> 99).
Proof.
  apply (line_for_a_missing_batch_fails_the_commit shape_sale shape_sale_item
           constraints minus_nan constraints_reference_batches
           cashier noon one_of_batch_99 stocked_db
           [cart_line 1 10 "12.00" "120.00"; cart_line 99 1 "7.00" "7.00"]
           (cart_line 99 1 "7.00" "7.00") 99).
  - vm_compute. reflexivity.
  - apply list_elem_of_further, list_elem_of_here.
  - unfold line_batch. cbn. apply as_int_VInt.
  - vm_compute. reflexivity.
Defined.

(** C5 fails in the code.  Neither the request that pays 150.00 for 120.00
    nor the one that pays 100.00 gets a response with an amount received
    and a change: both are answered 500. *)
Theorem no_change_is_answered :
  is_json ten_of_batch_1 = true /\ is_json underpaid = true
  /\ field ten_of_batch_1 "amountReceived" = VInt 150
  /\ field underpaid "amountReceived" = VInt 100
  /\ fst (shipped (PostSales cashier noon ten_of_batch_1) stocked_db)
     = internal_error
  /\ fst (shipped (PostSales cashier noon underpaid) stocked_db)
     = internal_error.
Proof.
  split; [reflexivity|]. split; [reflexivity|].
  split; [reflexivity|]. split; [reflexivity|].
  split; cbn [shipped step]; by rewrite sale_commit_is_rejected
    by apply shape_sale_takes_text.
Qed.


(** C7 fails: a received purchase of fifty of batch AMX001 is stored, and
    batch AMX001 holds what it held.  (The purchase is stored although the
    answer is 500: its item carries the date as a string, which the
    validator of the items rejects after the purchase has been written.) *)
Lemma received_purchase_adds_nothing :
  is_json fifty_more = true
  /\ batchNumber <$> rows (drugBatches stocked_db) !! 1 = Some (VStr "AMX001")
  /\ quantity_of stocked_db 1 = Some 100
  /\ rows (purchases stocked_db) !! 1 = None
  /\ code_of (fst (shipped (PostPurchases admin noon fifty_more) stocked_db)) = 500
  /\ rows (purchaseItems
             (snd (shipped (PostPurchases admin noon fifty_more) stocked_db)))
     = ∅
  /\ assoc "status"
       <$> (purchase_data
              <$> rows (purchases
                          (snd (shipped (PostPurchases admin noon fifty_more)
                                  stocked_db))) !! 1)
     = Some (VStr "received")
  /\ quantity_of (snd (shipped (PostPurchases admin noon fifty_more) stocked_db)) 1
     = Some 100.
Proof. vm_compute. repeat split; reflexivity. Qed.

(** C7 as amended, on the scenario: the purchase leaves the batch table,
    and a new drug leaves batch 1. *)
Lemma purchase_and_new_drug_leave_batch_1 :
  drugBatches (snd (shipped (PostPurchases admin noon fifty_more) stocked_db))
  = drugBatches stocked_db
  /\ exists b,
       rows (drugBatches stocked_db) !! 1 = Some b
       /\ rows (drugBatches (snd (shipped (PostDrugs admin cetirizine) stocked_db)))
            !! 1
          = Some b.
Proof.
  destruct (only_the_sale_commit_changes_a_batch
              shape_sale shape_sale_item shape_purchase shape_purchase_item
              shape_drug_batch shape_drug shape_drug_patch constraints minus_nan)
    as [Hpurchase Hothers].
  split; [apply Hpurchase|].
  destruct (rows (drugBatches stocked_db) !! 1) as [b|] eqn:E;
    [|vm_compute in E; discriminate].
  exists b. split; [reflexivity|]. apply Hothers; [reflexivity | exact E].
Defined.

(** C9 on three carts that are not in order: an empty one, one with a
    line for minus five, and one with a line for batch 99. *)
Lemma disorderly_carts_are_rejected :
  shipped (PostSales cashier noon empty_cart) stocked_db
  = (internal_error, stocked_db)
  /\ shipped (PostSales cashier noon minus_five_of_batch_1) stocked_db
     = (internal_error, stocked_db)
  /\ shipped (PostSales cashier noon one_of_batch_99) stocked_db
     = (internal_error, stocked_db).
Proof.
  split; [|split].
  - apply (disorderly_cart_is_rejected shape_sale shape_sale_item constraints
             minus_nan cashier noon empty_cart stocked_db);
      [apply shape_sale_takes_text|].
    intros (items & Hcart & Hne & _). vm_compute in Hcart. by injection Hcart as <-.
  - apply (disorderly_cart_is_rejected shape_sale shape_sale_item constraints
             minus_nan cashier noon minus_five_of_batch_1 stocked_db);
      [apply shape_sale_takes_text|].
    intros (items & Hcart & _ & Hlines). vm_compute in Hcart.
    injection Hcart as <-. apply Forall_cons in Hlines as [(n & q & _ & _ & Hq & Hpos) _].
    vm_compute in Hq. injection Hq as <-. lia.
  - apply (disorderly_cart_is_rejected shape_sale shape_sale_item constraints
             minus_nan cashier noon one_of_batch_99 stocked_db);
      [apply shape_sale_takes_text|].
    intros (items & Hcart & _ & Hlines). vm_compute in Hcart.
    injection Hcart as <-.
    apply Forall_cons in Hlines as [_ Hlines].
    apply Forall_cons in Hlines as [(n & q & Hn & Hthere & _) _].
    vm_compute in Hn. injection Hn as <-.
    vm_compute in Hthere. by destruct Hthere.
Defined.

(** C10 on the scenario: a request without a payment method, and the
    request of the scenario over an engine that would refuse its header,
    get the same answer. *)
Lemma rejected_and_refused_look_alike :
  sale_outcome no_payment_method stocked_db
  = (Json 500 (BMessage "Internal server error"), stocked_db)
  /\ post_sales shape_sale shape_sale_item refuses_sales minus_nan
       cashier noon ten_of_batch_1 stocked_db
     = (Json 500 (BMessage "Internal server error"), stocked_db).
Proof.
  split.
  - apply (failed_commit_answers_500
             shape_sale shape_sale_item never_refuses minus_nan
             cashier noon no_payment_method stocked_db ZodError stocked_db).
    vm_compute. reflexivity.
  - apply (failed_commit_answers_500
             shape_sale shape_sale_item refuses_sales minus_nan
             cashier noon ten_of_batch_1 stocked_db ZodError stocked_db).
    vm_compute. reflexivity.
Defined.

(** ** Further properties of the sale commit *)

Section MoreOnSales.

Variable insertSaleSchema : InsertSale -> bool.
Variable insertSaleItemSchema : InsertSaleItem -> bool.
Variable refuses : DB -> call -> bool.
Variable js_minus_coerce : value -> value -> value.

Local Abbreviation loop := (sale_items_loop insertSaleItemSchema refuses js_minus_coerce).
Local Abbreviation commit := (sale_commit insertSaleSchema insertSaleItemSchema refuses js_minus_coerce).
Local Abbreviation handler := (post_sales insertSaleSchema insertSaleItemSchema refuses js_minus_coerce).

#[local] Instance sale_footprint_preorder : PreOrder sale_footprint.
Proof.
  split.
  - intros db. repeat split; auto.
  - intros a b c (? & ? & ? & Hs1 & Hi1 & Hb1) (? & ? & ? & Hs2 & Hi2 & Hb2).
    repeat split; try congruence; auto.
Qed.

Lemma createSale_footprint sale : frame sale_footprint (createSale refuses sale).
Proof.
  apply frame_engine; [apply _|]. intros db. unfold insert_row.
  destruct (rows (sales db) !! seq (sales db)) eqn:E; cbn; repeat split; auto.
  intros id s Hs. cbn. rewrite lookup_insert_ne; [done|]. congruence.
Qed.

Lemma createSaleItem_footprint c : frame sale_footprint (createSaleItem refuses c).
Proof.
  apply frame_engine; [apply _|]. intros db.
  destruct (as_int (saleId c)), (as_int (drugBatchId c)),
    (as_int (item_quantity c)); cbn; try reflexivity.
  unfold insert_row.
  destruct (rows (saleItems db) !! seq (saleItems db)) eqn:E; cbn; repeat split; auto.
  intros id s Hs. cbn. rewrite lookup_insert_ne; [done|]. congruence.
Qed.

Lemma updateDrugBatch_footprint id q :
  frame sale_footprint (updateDrugBatch refuses id q).
Proof.
  apply frame_engine; [apply _|]. intros db.
  destruct (as_int id) as [n|], (as_int q) as [x|]; cbn; try reflexivity.
  repeat split; auto. intros k. cbn. rewrite lookup_alter. case_decide; [|done].
  subst. by destruct (rows (drugBatches db) !! k).
Qed.

Lemma sale_items_loop_footprint newSale items acc :
  frame sale_footprint (loop newSale items acc).
Proof.
  revert acc. induction items as [|item rest IH]; intros acc; cbn [sale_items_loop].
  - apply frame_ret, _.
  - do 4 (apply frame_bind; [apply _ | apply frame_lift, _ | intros ?]).
    apply frame_parse_bind; [apply _|].
    apply frame_bind; [apply _ | apply createSaleItem_footprint | intros ?].
    apply frame_bind; [apply _ | apply getDrugBatch_frame, _ | intros [b|]].
    + apply frame_bind; [apply _ | apply updateDrugBatch_footprint | intros ?].
      apply IH.
    + apply IH.
Qed.

Lemma post_sales_snd user clk body db :
  snd (handler user clk body db) = snd (commit user clk body db).
Proof. unfold post_sales. by destruct (commit user clk body db) as [[?|?] ?]. Qed.

(** X2. However a sale commit ends, it has only added sales and sale
    items and changed quantities of batches: no drug, purchase or purchase
    item is touched, no sale or sale item that was stored is rewritten or
    removed, and no batch is added, removed or changed in anything but its
    quantity. *)
Theorem sale_commit_footprint user clk body db :
  sale_footprint db (snd (handler user clk body db)).
Proof.
  rewrite post_sales_snd. revert db. change (frame sale_footprint (commit user clk body)).
  unfold sale_commit.
  do 8 (apply frame_bind; [apply _ | apply frame_lift, _ | intros ?]).
  apply frame_parse_bind; [apply _|].
  apply frame_bind; [apply _ | apply createSale_footprint | intros ?].
  apply frame_bind; [apply _ | apply frame_lift, _ | intros ?].
  apply frame_bind; [apply _ | apply sale_items_loop_footprint | intros ?].
  apply frame_ret, _.
Qed.

End MoreOnSales.

(** ** Further properties of the routes *)

Section MoreOnRoutes.

Variable insertSaleSchema : InsertSale -> bool.
Variable insertSaleItemSchema : InsertSaleItem -> bool.
Variable insertPurchaseSchema : list (string * value) -> bool.
Variable insertPurchaseItemSchema : list (string * value) -> bool.
Variable insertDrugBatchSchema : value -> bool.
Variable insertDrugSchema : value -> bool.
Variable insertDrugSchema_partial : value -> bool.
Variable refuses : DB -> call -> bool.
Variable js_minus_coerce : value -> value -> value.
Variable fails : DB -> query -> bool.

Local Abbreviation run :=
  (step insertSaleSchema insertSaleItemSchema insertPurchaseSchema
     insertPurchaseItemSchema insertDrugBatchSchema insertDrugSchema
     insertDrugSchema_partial refuses js_minus_coerce).

(** *** Ids *)

#[local] Instance stays_sound_preorder : PreOrder stays_sound.
Proof.
  split; [intros db H; exact H | intros a b c H1 H2 H; exact (H2 (H1 H))].
Qed.

Lemma sound_table_insert_row {R} (id_of : R -> Z) (mk : Z -> R) t :
  (forall id, id_of (mk id) = id) ->
  sound_table id_of t -> sound_table id_of (snd (insert_row mk t)).
Proof.
  intros Hmk [Hfresh Hid]. unfold insert_row.
  destruct (rows t !! seq t) eqn:E; cbn.
  - split; [|done]. intros id Hge. cbn in *. apply Hfresh. lia.
  - split.
    + intros id Hge. cbn in *. rewrite lookup_insert_ne by lia. apply Hfresh. lia.
    + intros id r. cbn. destruct (decide (seq t = id)) as [<-|Hne].
      * rewrite lookup_insert_eq. by intros [= <-].
      * rewrite lookup_insert_ne by done. apply Hid.
Qed.

Lemma sound_table_alter {R} (id_of : R -> Z) (f : R -> R) n t :
  (forall r, id_of (f r) = id_of r) ->
  sound_table id_of t ->
  sound_table id_of {| rows := alter f n (rows t); seq := seq t |}.
Proof.
  intros Hf [Hfresh Hid]. split.
  - intros id Hge. cbn in *. specialize (Hfresh id Hge).
    destruct (decide (n = id)) as [->|Hne].
    + by rewrite lookup_alter_eq, Hfresh.
    + by rewrite lookup_alter_ne.
  - intros id r. cbn. destruct (decide (n = id)) as [->|Hne].
    + rewrite lookup_alter_eq. destruct (rows t !! id) as [r0|] eqn:E; [|done].
      intros [= <-]. rewrite Hf. by apply Hid.
    + rewrite lookup_alter_ne by done. apply Hid.
Qed.

Lemma sound_table_overwrite {R} (id_of : R -> Z) n old new t :
  rows t !! n = Some old -> id_of new = n ->
  sound_table id_of t ->
  sound_table id_of {| rows := <[n := new]> (rows t); seq := seq t |}.
Proof.
  intros Hold Hnew [Hfresh Hid]. split.
  - intros id Hge. cbn in *. specialize (Hfresh id Hge).
    rewrite lookup_insert_ne; [done|]. congruence.
  - intros id r. cbn. destruct (decide (n = id)) as [->|Hne].
    + rewrite lookup_insert_eq. by intros [= <-].
    + rewrite lookup_insert_ne by done. apply Hid.
Qed.

Lemma sound_table_delete {R} (id_of : R -> Z) n t :
  sound_table id_of t ->
  sound_table id_of {| rows := delete n (rows t); seq := seq t |}.
Proof.
  intros [Hfresh Hid]. split.
  - intros id Hge. cbn in *. apply lookup_delete_None. right. by apply Hfresh.
  - intros id r. cbn. intros H. apply lookup_delete_Some in H as [_ H]. by apply Hid.
Qed.

Ltac sound_insert id_of :=
  match goal with
  | |- context [insert_row ?mk ?t] =>
      let H := fresh "H" in
      pose proof (sound_table_insert_row id_of mk t (fun _ => eq_refl)) as H;
      destruct (insert_row mk t) as [[?|] ?];
      intros (? & ? & ? & ? & ? & ?); unfold sound; cbn; split_and!; auto
  end.

Lemma createSale_sound s : frame stays_sound (createSale refuses s).
Proof. apply frame_engine; [apply _|]. intros db. cbn. sound_insert sale_id. Qed.

Lemma createSaleItem_sound c : frame stays_sound (createSaleItem refuses c).
Proof.
  apply frame_engine; [apply _|]. intros db. cbn.
  destruct (as_int (saleId c)), (as_int (drugBatchId c)),
    (as_int (item_quantity c)); try (by intros ?).
  sound_insert item_id.
Qed.

Lemma updateDrugBatch_sound id q : frame stays_sound (updateDrugBatch refuses id q).
Proof.
  apply frame_engine; [apply _|]. intros db. cbn.
  destruct (as_int id), (as_int q); try (by intros ?).
  intros (? & ? & ? & ? & ? & ?); unfold sound; cbn; split_and!; auto;
    by apply sound_table_alter.
Qed.

Lemma createDrugBatch_sound batch : frame stays_sound (createDrugBatch refuses batch).
Proof.
  apply frame_engine; [apply _|]. intros db. cbn.
  destruct (as_int (assoc "quantity" (spread batch))); [|by intros ?].
  sound_insert batch_id.
Qed.

Lemma createDrug_sound drug : frame stays_sound (createDrug refuses drug).
Proof.
  apply frame_engine; [apply _|]. intros db. cbn.
  destruct (as_text (assoc "name" (spread drug))),
    (as_opt_text (assoc "genericName" (spread drug))),
    (as_opt_text (assoc "brand" (spread drug))),
    (as_opt_text (assoc "barcode" (spread drug))); try (by intros ?).
  sound_insert drug_id.
Qed.

Lemma updateDrug_sound id drug : frame stays_sound (updateDrug refuses id drug).
Proof.
  unfold updateDrug. destruct (no_values (spread drug)); [apply frame_throw, _|].
  apply frame_engine; [apply _|]. intros db. cbn.
  destruct (as_int id) as [n|]; [|by intros ?].
  destruct (rows (drugs db) !! n) as [old|] eqn:E; [|by intros ?].
  destruct (patch_text (assoc "name" (spread drug)) (name old)),
    (patch_opt_text (assoc "genericName" (spread drug)) (genericName old)),
    (patch_opt_text (assoc "brand" (spread drug)) (brand old)),
    (patch_opt_text (assoc "barcode" (spread drug)) (barcode old));
    try (by intros ?).
  intros (? & ? & ? & ? & ? & ?); unfold sound; cbn; split_and!; auto.
  by eapply sound_table_overwrite.
Qed.

Lemma deleteDrug_sound id : frame stays_sound (deleteDrug refuses id).
Proof.
  apply frame_engine; [apply _|]. intros db. cbn.
  destruct (as_int id) as [n|]; [|by intros ?].
  intros (? & ? & ? & ? & ? & ?); unfold sound; cbn; split_and!; auto.
  by apply sound_table_delete.
Qed.

Lemma createPurchase_sound p : frame stays_sound (createPurchase refuses p).
Proof. apply frame_engine; [apply _|]. intros db. cbn. sound_insert purchase_id. Qed.

Lemma createPurchaseItem_sound p : frame stays_sound (createPurchaseItem refuses p).
Proof. apply frame_engine; [apply _|]. intros db. cbn. sound_insert pitem_id. Qed.

Lemma sale_items_loop_sound newSale items acc :
  frame stays_sound
    (sale_items_loop insertSaleItemSchema refuses js_minus_coerce newSale items acc).
Proof.
  revert acc. induction items as [|item rest IH]; intros acc; cbn [sale_items_loop].
  - apply frame_ret, _.
  - do 4 (apply frame_bind; [apply _ | apply frame_lift, _ | intros ?]).
    apply frame_parse_bind; [apply _|].
    apply frame_bind; [apply _ | apply createSaleItem_sound | intros ?].
    apply frame_bind; [apply _ | apply getDrugBatch_frame, _ | intros [b|]].
    + apply frame_bind; [apply _ | apply updateDrugBatch_sound | intros ?].
      apply IH.
    + apply IH.
Qed.

Lemma sale_commit_sound user clk body :
  frame stays_sound
    (sale_commit insertSaleSchema insertSaleItemSchema refuses js_minus_coerce
       user clk body).
Proof.
  unfold sale_commit.
  do 8 (apply frame_bind; [apply _ | apply frame_lift, _ | intros ?]).
  apply frame_parse_bind; [apply _|].
  apply frame_bind; [apply _ | apply createSale_sound | intros ?].
  apply frame_bind; [apply _ | apply frame_lift, _ | intros ?].
  apply frame_bind; [apply _ | apply sale_items_loop_sound | intros ?].
  apply frame_ret, _.
Qed.

Lemma purchase_items_loop_sound newPurchase items :
  frame stays_sound
    (purchase_items_loop insertPurchaseItemSchema refuses newPurchase items).
Proof.
  induction items as [|item rest IH]; cbn [purchase_items_loop].
  - apply frame_ret, _.
  - apply frame_parse_bind; [apply _|].
    apply frame_bind; [apply _ | apply createPurchaseItem_sound | intros _; apply IH].
Qed.

Lemma purchase_commit_sound user clk body :
  frame stays_sound
    (purchase_commit insertPurchaseSchema insertPurchaseItemSchema refuses
       user clk body).
Proof.
  unfold purchase_commit.
  do 2 (apply frame_bind; [apply _ | apply frame_lift, _ | intros ?]).
  apply frame_parse_bind; [apply _|].
  apply frame_bind; [apply _ | apply createPurchase_sound | intros ?].
  apply frame_bind; [apply _ | apply frame_lift, _ | intros ?].
  apply frame_bind; [apply _ | apply purchase_items_loop_sound | intros ?].
  apply frame_ret, _.
Qed.

Lemma step_stays_sound op db : stays_sound db (snd (run op db)).
Proof.
  destruct op as [user clk body | user clk body | user body | user body
                 | user pid body | user pid | q | user]; cbn [step].
  - rewrite post_sales_snd. apply sale_commit_sound.
  - unfold post_purchases. apply requireRole_frame; [apply _|].
    rewrite respond_snd. apply purchase_commit_sound.
  - unfold post_drug_batches. apply requireRole_frame; [apply _|].
    rewrite respond_snd. revert db.
    apply frame_parse_bind; [apply _ | apply createDrugBatch_sound].
  - unfold post_drugs. apply requireRole_frame; [apply _|].
    rewrite respond_snd. revert db.
    apply frame_parse_bind; [apply _ | apply createDrug_sound].
  - unfold put_drug. apply requireRole_frame; [apply _|].
    rewrite respond_snd. revert db.
    apply frame_parse_bind; [apply _ | apply updateDrug_sound].
  - unfold delete_drug. apply requireRole_frame; [apply _|].
    rewrite respond_snd. apply deleteDrug_sound.
  - unfold get_drugs_search. destruct q as [[|]|]; try (by intros ?).
    rewrite respond_snd. revert db.
    apply frame_engine; [apply _|]. by intros db.
  - unfold post_init_test_data. apply requireRole_frame; [apply _|].
    rewrite respond_snd. revert db.
    apply frame_bind; [apply _ | | intros _].
    + apply frame_try_each; [apply _|]. intros d. apply createDrug_sound.
    + apply frame_try_each; [apply _|]. intros d. apply createDrugBatch_sound.
Qed.

(** X10. Every route keeps the ids in order: if in each table the
    sequence is ahead of the rows and every row is stored under its own
    id, the same holds after the route, however it ends.  So an insert
    never meets an id that is taken. *)
Theorem routes_keep_the_ids_sound op db :
  sound db -> sound (snd (run op db)).
Proof. exact (step_stays_sound op db). Qed.

(** *** Roles *)

Lemma respond_code {A} code (payload : A -> body) (m : M A) db :
  code_of (fst (respond code payload m db)) = code
  \/ code_of (fst (respond code payload m db)) = 500.
Proof. unfold respond. destruct (m db) as [[?|?] ?]; cbn; auto. Qed.

(** X11. The role check of the routes that have one: a user whose role
    is not among those the route asks for is answered 403 and nothing is
    written; a user whose role is among them is never answered 403. *)
Theorem role_gate op db roles user :
  gate op = Some (roles, user) ->
  (role user ∉ roles ->
   run op db = (Json 403 (BMessage "Insufficient permissions"), db))
  /\ (role user ∈ roles -> code_of (fst (run op db)) ∈ [200; 201; 204; 500]).
Proof.
  intros Hgate.
  destruct op as [user' clk body | user' clk body | user' body | user' body
                 | user' pid body | user' pid | q | user'];
    cbn in Hgate; simplify_eq; cbn [step];
    unfold post_purchases, post_drug_batches, post_drugs, put_drug, delete_drug,
      post_init_test_data, requireRole;
    (split; intros Hrole;
     [by rewrite bool_decide_eq_false_2
     | rewrite bool_decide_eq_true_2 by done;
       match goal with
       | |- context [respond ?c ?f ?m ?db] =>
           destruct (respond_code c f m db) as [-> | ->]
       end; rewrite !elem_of_cons; auto 10]).
Qed.

(** X12. The sale commit has no role check, and of the user it reads the
    id only: two users with the same id get the same answer and leave the
    same tables, whatever their roles. *)
Theorem sale_commit_asks_no_role user user' clk body db :
  user_id user = user_id user' ->
  run (PostSales user clk body) db = run (PostSales user' clk body) db.
Proof.
  intros H. cbn [step]. unfold post_sales, sale_commit. by rewrite H.
Qed.

(** *** The test data *)

Lemma try_each_Ok {A B} (f : A -> M B) l db : fst (try_each f l db) = Ok tt.
Proof.
  revert db. induction l as [|x l IH]; intros db; [done|].
  cbn [try_each]. unfold bind, try_ignore. apply IH.
Qed.

(** X13. Loading the test data never fails for an administrator: every
    creation sits in its own [try] with an empty [catch], so the answer is
    200 whatever the engine refuses. *)
Theorem init_test_data_answers_200 user db :
  role user = "admin" ->
  fst (post_init_test_data refuses user db)
  = Json 200 (BMessage "Test data initialized successfully").
Proof.
  intros Hrole. unfold post_init_test_data, requireRole.
  rewrite Hrole. cbn [bool_decide decide_rel]. rewrite bool_decide_eq_true_2 by apply list_elem_of_here.
  unfold respond, bind.
  pose proof (try_each_Ok (createDrug refuses) test_drugs db) as H1.
  destruct (try_each (createDrug refuses) test_drugs db) as [r1 db1].
  cbn in H1. subst r1.
  pose proof (try_each_Ok (createDrugBatch refuses) test_batches db1) as H2.
  destruct (try_each (createDrugBatch refuses) test_batches db1) as [r2 db2].
  cbn in H2. by subst r2.
Qed.

Lemma try_each_count {A B} (f : A -> M B) (count : DB -> nat) (ok : DB -> Prop)
    l db :
  (forall x db, x ∈ l -> ok db ->
     ok (snd (f x db)) /\ count (snd (f x db)) = S (count db)) ->
  ok db ->
  ok (snd (try_each f l db))
  /\ count (snd (try_each f l db)) = (count db + length l)%nat.
Proof.
  revert db. induction l as [|x l IH]; intros db Hf Hok.
  - cbn. split; [done | lia].
  - cbn [try_each]. unfold bind, try_ignore.
    destruct (Hf x db) as [Hok1 Hc1]; [apply list_elem_of_here | done |].
    destruct (IH (snd (f x db))) as [Hok2 Hc2]; [|done|].
    + intros y db0 Hy. apply Hf. by apply list_elem_of_further.
    + split; [done|]. rewrite Hc2, Hc1. cbn [length]. lia.
Qed.

Lemma insert_row_fresh {R} (mk : Z -> R) t :
  fresh t ->
  fresh (snd (insert_row mk t))
  /\ size (rows (snd (insert_row mk t))) = S (size (rows t)).
Proof.
  intros Hfresh. unfold insert_row.
  rewrite (Hfresh (seq t)) by lia. cbn. split.
  - intros id Hge. cbn in *. rewrite lookup_insert_ne by lia. apply Hfresh. lia.
  - apply map_size_insert_None, Hfresh. lia.
Qed.

Lemma createDrug_adds x db :
  refuses db (CreateDrug x) = false -> x ∈ test_drugs ->
  fresh (drugs db) ->
  fresh (drugs (snd (createDrug refuses x db)))
  /\ drugBatches (snd (createDrug refuses x db)) = drugBatches db
  /\ size (rows (drugs (snd (createDrug refuses x db))))
     = S (size (rows (drugs db))).
Proof.
  intros Hacc Hx Hfresh. unfold createDrug, engine. rewrite Hacc. cbv zeta.
  assert (exists n g, as_text (assoc "name" (spread x)) = Some n
                      /\ as_opt_text (assoc "genericName" (spread x)) = Some g
                      /\ as_opt_text (assoc "brand" (spread x)) = Some None
                      /\ as_opt_text (assoc "barcode" (spread x)) = Some None)
    as (n & g & -> & -> & -> & ->).
  { unfold test_drugs in Hx. rewrite !elem_of_cons, elem_of_nil in Hx.
    destruct Hx as [-> | [-> | [-> | [-> | []]]]];
      eexists _, _; vm_compute; repeat split; reflexivity. }
  match goal with
  | |- context [insert_row ?mk ?t] =>
      destruct (insert_row_fresh mk t Hfresh) as [H1 H2];
      destruct (insert_row mk t) as [[?|] ?]; cbn in *; done
  end.
Qed.

Lemma createDrugBatch_adds x db :
  refuses db (CreateDrugBatch x) = false -> x ∈ test_batches ->
  fresh (drugBatches db) ->
  fresh (drugBatches (snd (createDrugBatch refuses x db)))
  /\ drugs (snd (createDrugBatch refuses x db)) = drugs db
  /\ size (rows (drugBatches (snd (createDrugBatch refuses x db))))
     = S (size (rows (drugBatches db))).
Proof.
  intros Hacc Hx Hfresh. unfold createDrugBatch, engine. rewrite Hacc. cbv zeta.
  assert (exists q, as_int (assoc "quantity" (spread x)) = Some q) as (q & ->).
  { unfold test_batches in Hx. rewrite !elem_of_cons, elem_of_nil in Hx.
    destruct Hx as [-> | [-> | [-> | [-> | []]]]];
      eexists; vm_compute; reflexivity. }
  match goal with
  | |- context [insert_row ?mk ?t] =>
      destruct (insert_row_fresh mk t Hfresh) as [H1 H2];
      destruct (insert_row mk t) as [[?|] ?]; cbn in *; done
  end.
Qed.

(** X14. Loading the test data is not idempotent: with an engine that
    accepts the writes, every call adds four drugs and four batches to
    those there are.  Nothing in the schema makes a drug's name or a
    batch's number unique, so the second call does not fail on the first
    call's rows, although the [catch] blocks expect it to. *)
Theorem init_test_data_adds_four_of_each user db :
  accepts_all refuses -> role user = "admin" ->
  fresh (drugs db) -> fresh (drugBatches db) ->
  size (rows (drugs (snd (run (PostInitTestData user) db))))
  = (size (rows (drugs db)) + 4)%nat
  /\ size (rows (drugBatches (snd (run (PostInitTestData user) db))))
     = (size (rows (drugBatches db)) + 4)%nat.
Proof.
  intros Hacc Hrole Hd Hb. cbn [step]. unfold post_init_test_data, requireRole.
  rewrite Hrole, bool_decide_eq_true_2 by apply list_elem_of_here.
  rewrite respond_snd. unfold bind.
  destruct (try_each_count (createDrug refuses)
              (fun db0 => size (rows (drugs db0)))
              (fun db0 => fresh (drugs db0) /\ drugBatches db0 = drugBatches db)
              test_drugs db) as [[Hd1 Hb1] Hc1]; [|done|].
  { intros x db0 Hx [Hf He].
    destruct (createDrug_adds x db0) as (? & ? & ?); [apply Hacc|done..|].
    split; [split; [done | congruence] | done]. }
  pose proof (try_each_Ok (createDrug refuses) test_drugs db) as Hok.
  destruct (try_each (createDrug refuses) test_drugs db) as [r1 db1].
  cbn in Hok, Hd1, Hb1, Hc1. subst r1.
  destruct (try_each_count (createDrugBatch refuses)
              (fun db0 => size (rows (drugBatches db0)))
              (fun db0 => fresh (drugBatches db0) /\ drugs db0 = drugs db1)
              test_batches db1) as [[Hb2 Hd2] Hc2]; [|by rewrite Hb1|].
  { intros x db0 Hx [Hf He].
    destruct (createDrugBatch_adds x db0) as (? & ? & ?); [apply Hacc|done..|].
    split; [split; [done | congruence] | done]. }
  rewrite Hd2, Hc2, Hc1, Hb1. done.
Qed.

(** *** Purchases *)

Lemma respond_Ok {A} code (payload : A -> body) (m : M A) db code' b db' :
  respond code payload m db = (Json code' b, db') -> code' <> 500 ->
  exists a, m db = (Ok a, db') /\ b = payload a.
Proof.
  unfold respond. destruct (m db) as [[a|e] db1]; intros [= <- <- <-] Hc; [eauto | done].
Qed.

Lemma requireRole_answer roles user h db code b db' :
  requireRole roles user h db = (Json code b, db') -> code <> 403 ->
  role user ∈ roles /\ h db = (Json code b, db').
Proof.
  unfold requireRole. case_bool_decide; [done|]. by intros [= <- <- <-].
Qed.

Lemma createPurchaseItem_Ok data db row db1 :
  createPurchaseItem refuses data db = (Ok row, db1) ->
  rows (purchaseItems db) !! seq (purchaseItems db) = None
  /\ row = {| pitem_id := seq (purchaseItems db); pitem_data := data |}
  /\ db1 = set_purchaseItems
             {| rows := <[seq (purchaseItems db) := row]> (rows (purchaseItems db));
                seq := seq (purchaseItems db) + 1 |} db.
Proof.
  intros H. apply engine_Ok in H as [_ H]. cbv zeta in H. unfold insert_row in H.
  destruct (rows (purchaseItems db) !! seq (purchaseItems db)); [done|].
  by injection H as <- <-.
Qed.

Lemma purchase_items_loop_Ok newPurchase items db u db' :
  purchase_items_loop insertPurchaseItemSchema refuses newPurchase items db
  = (Ok u, db') ->
  seq (purchaseItems db') = seq (purchaseItems db) + Z.of_nat (length items)
  /\ purchases db' = purchases db
  /\ (forall id row, rows (purchaseItems db) !! id = Some row ->
                     rows (purchaseItems db') !! id = Some row)
  /\ (forall (k : nat) item, items !! k = Some item ->
        rows (purchaseItems db') !! (seq (purchaseItems db) + Z.of_nat k)
        = Some {| pitem_id := seq (purchaseItems db) + Z.of_nat k;
                  pitem_data :=
                    pick purchase_item_columns
                      (("purchaseId", VInt (purchase_id newPurchase))
                         :: spread item) |}).
Proof.
  revert db. induction items as [|item rest IH]; intros db H; cbn [purchase_items_loop] in H.
  - injection H as _ <-. cbn. split; [lia|]. split; [done|]. split; [done|].
    intros k item Hk. by rewrite lookup_nil in Hk.
  - inv_bind H. apply parse_Ok in Hm as (_ & -> & ->).
    inv_bind H. apply createPurchaseItem_Ok in Hm as (Hfree & -> & ->).
    apply IH in H as (Hseq & Hp & Hkept & Hnew). cbn in Hseq, Hp, Hkept, Hnew.
    split; [rewrite Hseq; cbn [length]; lia|]. split; [done|]. split.
    + intros id row Hid. apply Hkept. rewrite lookup_insert_ne; [done|]. congruence.
    + intros [|k] it Hk; cbn in Hk.
      * injection Hk as <-. rewrite Z.add_0_r. apply Hkept.
        by rewrite lookup_insert_eq.
      * specialize (Hnew k it Hk).
        replace (seq (purchaseItems db) + Z.of_nat (S k))
          with (seq (purchaseItems db) + 1 + Z.of_nat k)
          by lia.
        exact Hnew.
Qed.

(** X15. A purchase that is answered 201 is stored under the next id of
    its table with the user id of the caller and the purchase number made
    from the clock, whatever the request says of these two, and with
    status pending when the request gives none; [getPurchase] of its id
    returns it. *)
Theorem committed_purchase user clk body db p db' :
  run (PostPurchases user clk body) db = (Json 201 (BPurchase p), db') ->
  role user ∈ ["admin"; "pharmacist"]
  /\ purchase_id p = seq (purchases db)
  /\ assoc "userId" (purchase_data p) = VInt (user_id user)
  /\ assoc "purchaseNumber" (purchase_data p) = purchase_number clk
  /\ assoc "status" (purchase_data p)
     = with_default (VStr "pending")
         (assoc "status" (spread (field body "purchase")))
  /\ (fails db' (GetPurchase (purchase_id p)) = false ->
      getPurchase fails (purchase_id p) db' = (Ok (Some p), db')).
Proof.
  intros H. cbn [step] in H. unfold post_purchases in H.
  apply requireRole_answer in H as [Hrole H]; [|done].
  apply respond_Ok in H as (p' & H & [= <-]); [|done].
  unfold purchase_commit in H.
  inv_bind H. apply lift_Ok in Hm as [Hpur ->].
  inv_bind H. apply lift_Ok in Hm as [Hitems ->].
  inv_bind H. apply parse_Ok in Hm as (_ & -> & ->).
  inv_bind H. apply engine_Ok in Hm as [_ Hm]. cbv zeta in Hm.
  unfold insert_row in Hm.
  destruct (rows (purchases db) !! seq (purchases db)) eqn:Hfree; [done|].
  injection Hm as <- <-.
  inv_bind H. apply lift_Ok in Hm as [Hiter ->].
  inv_bind H. injection H as <- <-.
  apply purchase_items_loop_Ok in Hm as (_ & Hp & _).
  cbn in Hp. apply prop_Ok in Hpur as [_ ->].
  split; [done|]. split; [done|]. split; [reflexivity|]. split; [reflexivity|].
  split; [reflexivity|].
  intros Hread. unfold getPurchase, ask. rewrite Hread, Hp. cbn.
  by rewrite lookup_insert_eq.
Qed.

(** *** Drugs *)

(** X16. Updating a drug that does not exist is not reported: when the
    request sets some column, the update matches no row, the storage
    returns [undefined], and the route answers 200 with no drug and
    without writing.  (A request that sets no column is answered 500: the
    query builder throws on it.) *)
Theorem put_on_a_missing_drug user n body db :
  role user ∈ ["admin"; "pharmacist"] ->
  insertDrugSchema_partial body = true ->
  no_values (spread body) = false ->
  refuses db (UpdateDrug (VInt n) body) = false ->
  rows (drugs db) !! n = None ->
  run (PutDrug user (Some n) body) db = (Json 200 (BDrug None), db).
Proof.
  intros Hrole Hs Hset Hacc Hn. cbn [step]. unfold put_drug, requireRole.
  rewrite bool_decide_eq_true_2 by done.
  unfold respond, bind, parse. rewrite Hs. cbn [ret parsed_id].
  unfold updateDrug. rewrite Hset. unfold engine. rewrite Hacc. cbv zeta.
  by rewrite as_int_VInt, Hn.
Qed.

(** X17. An update that answers with a drug has rewritten the row of
    that id and no other: the drug keeps its id, takes the name of the
    request when it gives one and keeps its own when it gives none, and
    the other drugs and all batches are as they were. *)
Theorem updated_drug user pid body db d db' :
  run (PutDrug user pid body) db = (Json 200 (BDrug (Some d)), db') ->
  exists n old,
    pid = Some n
    /\ rows (drugs db) !! n = Some old
    /\ drug_id d = n
    /\ rows (drugs db') = <[n := d]> (rows (drugs db))
    /\ seq (drugs db') = seq (drugs db)
    /\ (assoc "name" (spread body) = VUndefined -> name d = name old)
    /\ (forall s, assoc "name" (spread body) = VStr s -> name d = s)
    /\ drugBatches db' = drugBatches db.
Proof.
  intros H. cbn [step] in H. unfold put_drug in H.
  apply requireRole_answer in H as [_ H]; [|done].
  apply respond_Ok in H as (r & H & [= <-]); [|done].
  inv_bind H. apply parse_Ok in Hm as (_ & -> & ->).
  unfold updateDrug in H. destruct (no_values (spread body)); [done|].
  apply engine_Ok in H as [_ H]. cbv zeta in H.
  destruct pid as [n|]; cbn [parsed_id] in H; [|done].
  rewrite as_int_VInt in H.
  destruct (rows (drugs db) !! n) as [old|] eqn:Hold; [|done].
  destruct (patch_text (assoc "name" (spread body)) (name old)) as [nm|] eqn:Hname;
    [|done].
  destruct (patch_opt_text (assoc "genericName" (spread body)) (genericName old));
    [|done].
  destruct (patch_opt_text (assoc "brand" (spread body)) (brand old)); [|done].
  destruct (patch_opt_text (assoc "barcode" (spread body)) (barcode old)); [|done].
  injection H as <- <-. exists n, old. cbn.
  split; [done|]. split; [done|]. split; [done|]. split; [done|]. split; [done|].
  split; [|split; [|done]].
  - intros E. rewrite E in Hname. by injection Hname as <-.
  - intros s E. rewrite E in Hname. by injection Hname as <-.
Qed.

(** X18. A delete by an administrator that the engine accepts is
    answered 204 whether or not there is a drug of that id.  After it no
    drug is stored under the id and no search returns one; the other
    drugs and the batches are as they were.  (An engine that enforces the
    reference of a batch to its drug accepts the delete only of a drug
    without batches.) *)
Theorem deleted_drug user n db :
  role user = "admin" ->
  refuses db (DeleteDrug (VInt n)) = false ->
  sound db ->
  exists db',
    run (DeleteDrugById user (Some n)) db = (Json 204 BEmpty, db')
    /\ rows (drugs db') !! n = None
    /\ (forall id, id <> n -> rows (drugs db') !! id = rows (drugs db) !! id)
    /\ drugBatches db' = drugBatches db
    /\ (forall q found,
          searchDrugs refuses q db' = (Ok found, db') ->
          forall d, d ∈ found -> drug_id d <> n).
Proof.
  intros Hrole Hacc Hsound. cbn [step]. unfold delete_drug, requireRole.
  rewrite Hrole, bool_decide_eq_true_2 by apply list_elem_of_here.
  unfold respond, deleteDrug, engine. cbn [parsed_id]. rewrite Hacc, as_int_VInt.
  eexists. split; [reflexivity|]. cbn.
  split; [apply lookup_delete_eq|].
  split; [intros id Hne; by apply lookup_delete_ne|]. split; [done|].
  intros q found H d Hd. apply engine_Ok in H as [_ H]. injection H as <-.
  apply list_elem_of_filter in Hd as [_ Hd].
  apply list_elem_of_fmap in Hd as ([id d'] & -> & Hd).
  apply elem_of_map_to_list in Hd. cbn in Hd |- *.
  apply lookup_delete_Some in Hd as [Hne Hd].
  destruct Hsound as ((_ & Hid) & _). by rewrite (Hid _ _ Hd).
Qed.

(** X19. A drug that has been created is found by the search: after
    [POST /api/drugs] is answered 201, a search for any part of the name
    the request gave, free of wildcards, returns the new drug. *)
Theorem created_drug_is_found user body db d db' c q :
  run (PostDrugs user body) db = (Json 201 (BDrug (Some d)), db') ->
  plain (String c q) = true ->
  contains (String c q) (name d) ->
  refuses db' (SearchDrugs (String c q)) = false ->
  assoc "name" (spread body) = VStr (name d)
  /\ rows (drugs db') !! drug_id d = Some d
  /\ exists found,
       run (GetDrugsSearch (Some (String c q))) db' = (Json 200 (BDrugs found), db')
       /\ d ∈ found.
Proof.
  intros H Hq Hin Hacc. cbn [step] in H. unfold post_drugs in H.
  apply requireRole_answer in H as [_ H]; [|done].
  apply respond_Ok in H as (r & H & [= <-]); [|done].
  inv_bind H. apply parse_Ok in Hm as (_ & -> & ->).
  apply engine_Ok in H as [_ H]. cbv zeta in H.
  destruct (as_text (assoc "name" (spread body))) as [nm|] eqn:Hname; [|done].
  destruct (as_opt_text (assoc "genericName" (spread body))); [|done].
  destruct (as_opt_text (assoc "brand" (spread body))); [|done].
  destruct (as_opt_text (assoc "barcode" (spread body))); [|done].
  unfold insert_row in H.
  destruct (rows (drugs db) !! seq (drugs db)); [done|].
  injection H as <- Hdb. split.
  { cbn. destruct (assoc "name" (spread body)); cbn in Hname; by simplify_eq. }
  assert (rows (drugs db') !! seq (drugs db)
          = Some {| drug_id := seq (drugs db); name := nm; genericName := o;
                    brand := o0; barcode := o1;
                    drug_columns :=
                      VObj (pick drug_other_columns (spread body)) |}) as Hd.
  { rewrite <- Hdb. cbn. apply lookup_insert_eq. }
  split; [exact Hd|]. cbn [step get_drugs_search].
  unfold respond, searchDrugs, engine. rewrite Hacc.
  eexists. split; [reflexivity|].
  apply list_elem_of_filter. split.
  - unfold drug_matches. apply orb_true_iff. left. apply orb_true_iff. left.
    apply orb_true_iff. left. by apply like_contains.
  - apply list_elem_of_fmap. eexists (_, _). split; [done|].
    apply elem_of_map_to_list. exact Hd.
Qed.

Lemma like_only_percent c p s :
  only_percent (String c p) = true -> like (String c p) s = true.
Proof.
  revert c. induction p as [|c' p IH]; intros c Hp; cbn in Hp;
    apply andb_true_iff in Hp as [Hc Hp]; apply Ascii.eqb_eq in Hc; subst c.
  - apply like_percent.
  - apply like_star. exists EmptyString, s. split; [done|]. by apply IH.
Qed.

Lemma only_percent_app p q :
  only_percent p = true -> only_percent q = true ->
  only_percent (p ++ q)%string = true.
Proof.
  intros Hp Hq. induction p as [|c p IH]; [done|].
  cbn in Hp. apply andb_true_iff in Hp as [Hc Hp].
  change (String c p +:+ q) with (String c (p +:+ q)). cbn.
  rewrite Hc. by apply IH.
Qed.

Lemma filter_all {A} (P : A -> Prop) `{!forall x, Decision (P x)} (l : list A) :
  Forall P l -> filter P l = l.
Proof.
  induction 1 as [|x l Hx _ IH]; [done|]. rewrite filter_cons_True by done.
  by rewrite IH.
Qed.

(** X20. The wildcards of the query are passed on to [LIKE]: a search
    for [%], or for any run of it, is not empty, so it is not turned away
    with 400, and it returns every drug there is. *)
Theorem percent_lists_every_drug c q db :
  only_percent (String c q) = true ->
  refuses db (SearchDrugs (String c q)) = false ->
  run (GetDrugsSearch (Some (String c q))) db
  = (Json 200 (BDrugs (select (drugs db))), db).
Proof.
  intros Hq Hacc. cbn [step get_drugs_search].
  unfold respond, searchDrugs, engine. rewrite Hacc.
  rewrite filter_all; [done|]. apply Forall_forall. intros d _.
  unfold drug_matches. apply orb_true_iff. left. apply orb_true_iff. left.
  apply orb_true_iff. left.
  change ("%" ++ String c q ++ "%")%string with (String "%" (String c q ++ "%")).
  apply like_only_percent. cbn [only_percent]. rewrite Ascii.eqb_refl. cbn [andb].
  by apply only_percent_app.
Qed.

End MoreOnRoutes.

(** ** The further properties on the concrete backend *)

Lemma sound_empty_db : sound empty_db.
Proof.
  unfold sound. split_and!;
    (split; [by apply fresh_empty | intros id r H; cbn in H; by rewrite lookup_empty in H]).
Qed.

Lemma stocked_db_sound : sound stocked_db.
Proof.
  exact (step_stays_sound shape_sale shape_sale_item shape_purchase
           shape_purchase_item shape_drug_batch shape_drug shape_drug_patch never_refuses
           minus_nan (PostInitTestData admin) empty_db sound_empty_db).
Qed.

(** X10 on the scenario. *)
Lemma ids_are_sound_after_the_scenario :
  sound (snd (step0 (PostSales cashier noon ten_of_batch_1) stocked_db)).
Proof.
  apply (routes_keep_the_ids_sound shape_sale shape_sale_item shape_purchase
           shape_purchase_item shape_drug_batch shape_drug shape_drug_patch never_refuses
           minus_nan (PostSales cashier noon ten_of_batch_1) stocked_db).
  apply stocked_db_sound.
Defined.

(** X11 on the purchase route: the cashier is turned away, the
    administrator is not. *)
Lemma cashier_may_not_purchase :
  step0 (PostPurchases cashier noon fifty_more) stocked_db
  = (Json 403 (BMessage "Insufficient permissions"), stocked_db)
  /\ code_of (fst (step0 (PostPurchases admin noon fifty_more) stocked_db))
     ∈ [200; 201; 204; 500].
Proof.
  split.
  - apply (role_gate shape_sale shape_sale_item shape_purchase
             shape_purchase_item shape_drug_batch shape_drug shape_drug_patch never_refuses
             minus_nan (PostPurchases cashier noon fifty_more) stocked_db
             ["admin"; "pharmacist"] cashier eq_refl).
    intros H. apply elem_of_cons in H as [H|H]; [discriminate|].
    apply elem_of_cons in H as [H|H]; [discriminate|]. by apply elem_of_nil in H.
  - apply (role_gate shape_sale shape_sale_item shape_purchase
             shape_purchase_item shape_drug_batch shape_drug shape_drug_patch never_refuses
             minus_nan (PostPurchases admin noon fifty_more) stocked_db
             ["admin"; "pharmacist"] admin eq_refl).
    apply list_elem_of_here.
Defined.

(** X12 on the scenario: the same sale by the same user id under another
    role. *)
Lemma same_sale_under_another_role :
  step0 (PostSales cashier noon ten_of_batch_1) stocked_db
  = step0 (PostSales amina_as_admin noon ten_of_batch_1) stocked_db.
Proof.
  apply (sale_commit_asks_no_role shape_sale shape_sale_item shape_purchase
           shape_purchase_item shape_drug_batch shape_drug shape_drug_patch never_refuses
           minus_nan cashier amina_as_admin noon ten_of_batch_1 stocked_db).
  reflexivity.
Defined.

(** X13 over an engine that refuses every write. *)
Lemma test_data_over_a_refusing_engine :
  fst (post_init_test_data refuses_everything admin empty_db)
  = Json 200 (BMessage "Test data initialized successfully").
Proof.
  apply (init_test_data_answers_200 refuses_everything admin empty_db).
  reflexivity.
Defined.

(** X14: the test data loaded a second time. *)
Lemma test_data_twice :
  size (rows (drugs (snd (step0 (PostInitTestData admin) stocked_db))))
  = (size (rows (drugs stocked_db)) + 4)%nat
  /\ size (rows (drugBatches (snd (step0 (PostInitTestData admin) stocked_db))))
     = (size (rows (drugBatches stocked_db)) + 4)%nat.
Proof.
  apply (init_test_data_adds_four_of_each shape_sale shape_sale_item
           shape_purchase shape_purchase_item shape_drug_batch shape_drug shape_drug_patch
           never_refuses minus_nan admin stocked_db).
  - apply never_refuses_accepts_all.
  - reflexivity.
  - apply stocked_db_sound.
  - apply stocked_db_sound.
Defined.

(** X17: drug 1 is given a brand and keeps its name. *)
Lemma amoxicillin_branded :
  exists n old,
    Some 1 = Some n
    /\ rows (drugs stocked_db) !! n = Some old
    /\ drug_id (drug_of (fst amoxil_branded)) = n
    /\ rows (drugs (snd amoxil_branded))
       = <[n := drug_of (fst amoxil_branded)]> (rows (drugs stocked_db))
    /\ seq (drugs (snd amoxil_branded)) = seq (drugs stocked_db)
    /\ (assoc "name" (spread brand_amoxil) = VUndefined ->
        name (drug_of (fst amoxil_branded)) = name old)
    /\ (forall s, assoc "name" (spread brand_amoxil) = VStr s ->
                  name (drug_of (fst amoxil_branded)) = s)
    /\ drugBatches (snd amoxil_branded) = drugBatches stocked_db.
Proof.
  apply (updated_drug shape_sale shape_sale_item shape_purchase
           shape_purchase_item shape_drug_batch shape_drug shape_drug_patch never_refuses
           minus_nan admin (Some 1) brand_amoxil stocked_db).
  vm_compute. reflexivity.
Defined.

(** X19: Cetirizine is created, and found under [tiri]. *)
Lemma cetirizine_is_found :
  assoc "name" (spread cetirizine) = VStr (name (drug_of (fst cetirizine_created)))
  /\ rows (drugs (snd cetirizine_created)) !! drug_id (drug_of (fst cetirizine_created))
     = Some (drug_of (fst cetirizine_created))
  /\ exists found,
       step0 (GetDrugsSearch (Some "tiri")) (snd cetirizine_created)
       = (Json 200 (BDrugs found), snd cetirizine_created)
       /\ drug_of (fst cetirizine_created) ∈ found.
Proof.
  apply (created_drug_is_found shape_sale shape_sale_item shape_purchase
           shape_purchase_item shape_drug_batch shape_drug shape_drug_patch never_refuses
           minus_nan admin cetirizine stocked_db).
  - vm_compute. reflexivity.
  - reflexivity.
  - exists "Ce", "zine". vm_compute. reflexivity.
  - reflexivity.
Defined.

(** X20: the query [%] lists the four drugs of the test data. *)
Lemma percent_lists_the_test_drugs :
  step0 (GetDrugsSearch (Some "%")) stocked_db
  = (Json 200 (BDrugs (select (drugs stocked_db))), stocked_db).
Proof.
  apply (percent_lists_every_drug shape_sale shape_sale_item shape_purchase
           shape_purchase_item shape_drug_batch shape_drug shape_drug_patch never_refuses
           minus_nan "%"%char EmptyString stocked_db).
  - reflexivity.
  - reflexivity.
Defined.

(** X15 on a purchase that names a user and a number of its own: the
    stored purchase carries those of the handler. *)
Lemma forged_purchase_is_overridden :
  role admin ∈ ["admin"; "pharmacist"]
  /\ purchase_id (purchase_of (fst forged_purchase_stored))
     = seq (purchases stocked_db)
  /\ assoc "userId" (purchase_data (purchase_of (fst forged_purchase_stored)))
     = VInt (user_id admin)
  /\ assoc "purchaseNumber" (purchase_data (purchase_of (fst forged_purchase_stored)))
     = purchase_number noon
  /\ assoc "status" (purchase_data (purchase_of (fst forged_purchase_stored)))
     = with_default (VStr "pending")
         (assoc "status" (spread (field forged_purchase "purchase")))
  /\ (never_fails (snd forged_purchase_stored)
        (GetPurchase (purchase_id (purchase_of (fst forged_purchase_stored))))
      = false ->
      getPurchase never_fails
        (purchase_id (purchase_of (fst forged_purchase_stored)))
        (snd forged_purchase_stored)
      = (Ok (Some (purchase_of (fst forged_purchase_stored))),
         snd forged_purchase_stored)).
Proof.
  apply (committed_purchase shape_sale shape_sale_item shape_purchase
           shape_purchase_item shape_drug_batch shape_drug shape_drug_patch
           constraints minus_nan never_fails admin noon forged_purchase
           stocked_db).
  vm_compute. reflexivity.
Defined.

(** X16: an update of drug 99, which does not exist. *)
Lemma put_on_drug_99 :
  shipped (PutDrug admin (Some 99) brand_amoxil) stocked_db
  = (Json 200 (BDrug None), stocked_db).
Proof.
  apply (put_on_a_missing_drug shape_sale shape_sale_item shape_purchase
           shape_purchase_item shape_drug_batch shape_drug shape_drug_patch
           constraints minus_nan admin 99 brand_amoxil stocked_db).
  - apply list_elem_of_here.
  - reflexivity.
  - reflexivity.
  - vm_compute. reflexivity.
  - vm_compute. reflexivity.
Defined.

(** X18: Cetirizine, which has no batch, is created and deleted. *)
Lemma cetirizine_deleted :
  exists db',
    shipped (DeleteDrugById admin (Some 5)) (snd cetirizine_created)
    = (Json 204 BEmpty, db')
    /\ rows (drugs db') !! 5 = None
    /\ (forall id, id <> 5 ->
                   rows (drugs db') !! id
                   = rows (drugs (snd cetirizine_created)) !! id)
    /\ drugBatches db' = drugBatches (snd cetirizine_created)
    /\ (forall q found,
          searchDrugs constraints q db' = (Ok found, db') ->
          forall d, d ∈ found -> drug_id d <> 5).
Proof.
  apply (deleted_drug shape_sale shape_sale_item shape_purchase
           shape_purchase_item shape_drug_batch shape_drug shape_drug_patch
           constraints minus_nan admin 5 (snd cetirizine_created)).
  - reflexivity.
  - vm_compute. reflexivity.
  - apply (step_stays_sound shape_sale shape_sale_item shape_purchase
             shape_purchase_item shape_drug_batch shape_drug shape_drug_patch
             never_refuses minus_nan (PostDrugs admin cetirizine) stocked_db).
    apply stocked_db_sound.
Defined.
